(** * dollar-screener: the calculation core of dollar_investment_screener_web.py

    The functions [calculate_dollar_gap_ratio], [analyze_dxy_trend],
    [get_investment_recommendation], [calculate_investment_details] and the
    scenario loop of the page are embedded as executable definitions.

    Numbers.  The program computes on binary floating point numbers
    (numpy.float64 values taken out of pandas frames).  The main
    embedding computes on exact rationals [Q]: every arithmetic operation
    is the ideal one, and whatever would leave the finite numbers (a
    division by zero, the minimum of an empty column) ends the run with a
    [fault] that names where it happened, where the program goes on with
    an infinity or nan.  Its theorems are stated for price series
    (positive closing values) and a positive window length, where no
    divisor is zero and no window is empty, and about structure:
    presence, order, counters and comparisons of stored values.  What
    depends on rounding, or on how the run goes on after a division by
    zero, is settled in the module [Binary64], which has the same lines
    on binary64 numbers.  Integer counters are [Z].

    Frames.  The only column the program reads is "Close", so a
    DataFrame is the list of its closing values, oldest first, and a
    frame argument that may be None is an [option (list Q)]. *)

From Stdlib Require Import ZArith QArith Qminmax List String DecimalString Bool Lia Lqa.
From Stdlib Require PrimFloat.
Import ListNotations.

Local Open Scope Z_scope.
Local Open Scope Q_scope.

(* ================================================================== *)
(** ** Outcomes of a run *)

(** The divisions of the program whose divisor is a run-time value. *)
Inductive division : Type :=
| RateVsMid        (* line 57:  (current_rate - rate_mid) / rate_mid *)
| DxyVsMid         (* line 69:  (current_dxy - dxy_mid) / dxy_mid *)
| CurrentGapRatio  (* line 78:  current_dxy / current_rate *)
| MidGapRatio      (* line 82:  dxy_mid / rate_mid *)
| AppropriateRate  (* line 85:  current_dxy / mid_gap_ratio *)
| RateDiffPct      (* line 173: rate_diff / appropriate_rate *)
| DollarAmount     (* line 209: investment_amount / current_rate *)
| NetDollar        (* line 215: net_investment / current_rate *)
| NewDollar.       (* line 472: net_investment / new_rate *)

Inductive fault : Type :=
| DivisionByZero (d : division)
    (* ZeroDivisionError on Python floats, inf or nan on numpy floats *)
| NotANumber
    (* min, max or mean of an empty column: nan *)
| IndexError
    (* .iloc[-1] on an empty column *)
| TypeError.
    (* a tuple subscripted with a string key *)

Inductive outcome (A : Type) : Type :=
| Value (a : A)
| Raise (f : fault).

Arguments Value {A} a.
Arguments Raise {A} f.

Definition bind {A B : Type} (c : outcome A) (k : A -> outcome B) : outcome B :=
  match c with
  | Value a => k a
  | Raise f => Raise f
  end.

Notation "x <- c ;; k" := (bind c (fun x => k))
  (at level 61, c at next level, right associativity).
Notation "' p <- c ;; k" := (bind c (fun x => let p := x in k))
  (at level 61, p pattern, c at next level, right associativity).

(* ================================================================== *)
(** ** Numbers *)

(** [x > y] on numbers. *)
Definition Qgtb (x y : Q) : bool := negb (Qle_bool x y).

(** [x < y] on numbers. *)
Definition Qltb (x y : Q) : bool := negb (Qle_bool y x).

(** [x / y] with a run-time divisor.  On a zero divisor the program's
    numpy floats give an infinity or nan and the run goes on; the exact
    numbers have no such value, and the embedding stops with the fault.
    On price series no divisor is zero; [Binary64] goes on as the program
    does. *)
Definition divide (d : division) (x y : Q) : outcome Q :=
  if Qeq_bool y 0 then Raise (DivisionByZero d) else Value (x / y).

(** The truth value of [if x:] for a number that may be None: None and 0
    are false, every other number is true.  The result is the number
    itself when the test passes. *)
Definition truthy (x : option Q) : option Q :=
  match x with
  | Some v => if Qeq_bool v 0 then None else Some v
  | None => None
  end.

(* ================================================================== *)
(** ** Frames *)

(** [len(df)] *)
Definition len (df : list Q) : Z := Z.of_nat (List.length df).

(** [df.tail(n)]: no row for [n = 0], the last [n] rows for [n > 0] (all
    of them when there are fewer), and all rows but the first [-n] for
    [n < 0]. *)
Definition tail (n : Z) (df : list Q) : list Q :=
  if (n =? 0)%Z then []
  else if (0 <? n)%Z then skipn (List.length df - Z.to_nat n)%nat df
  else skipn (Z.to_nat (- n)) df.

(** [col.min()].  Of an empty column pandas returns nan and the run
    goes on; the embedding stops with the fault.  A window of positive
    length on a frame that has it is not empty. *)
Fixpoint col_min (col : list Q) : outcome Q :=
  match col with
  | [] => Raise NotANumber
  | [x] => Value x
  | x :: rest => m <- col_min rest ;; Value (Qmin x m)
  end.

(** [col.max()], with the empty column as for [col_min]. *)
Fixpoint col_max (col : list Q) : outcome Q :=
  match col with
  | [] => Raise NotANumber
  | [x] => Value x
  | x :: rest => m <- col_max rest ;; Value (Qmax x m)
  end.

(** [col.sum()] *)
Definition col_sum (col : list Q) : Q := fold_right Qplus 0 col.

(** [col.mean()], as the exact mean.  The program's mean is a rounded
    binary64 number and can differ from it in the last place: which of
    the two trend labels comes out is settled on [Binary64]; here the
    mean serves for what does not depend on its value. *)
Definition col_mean (col : list Q) : outcome Q :=
  match col with
  | [] => Raise NotANumber
  | _ => Value (col_sum col / inject_Z (len col))
  end.

(** [col.iloc[-1]] *)
Fixpoint iloc_last (col : list Q) : outcome Q :=
  match col with
  | [] => Raise IndexError
  | [x] => Value x
  | _ :: rest => iloc_last rest
  end.

(** [df is not None and len(df) >= period_days], with the frame when the
    test passes. *)
Definition has_window (df : option (list Q)) (period_days : Z) : option (list Q) :=
  match df with
  | Some rows => if (period_days <=? len rows)%Z then Some rows else None
  | None => None
  end.

(* ================================================================== *)
(** ** calculate_dollar_gap_ratio *)

(** The dictionaries under "rate_stats" and "dxy_stats". *)
Record window_stats : Type := {
  current : option Q;
  mid : Q;
  min : Q;
  max : Q
}.

(** The dictionary the function returns. *)
Record gap_data : Type := {
  rate_vs_mid : option Q;
  dxy_vs_mid : option Q;
  current_gap_ratio : option Q;
  mid_gap_ratio : option Q;
  appropriate_rate : option Q;
  rate_stats : window_stats;
  dxy_stats : option window_stats
}.

(** What a variable named [gap_data] can hold in the program. *)
Inductive gap_value : Type :=
| PyNone                    (* None *)
| NoneTuple                 (* (None, None, None, None, None) *)
| GapDict (g : gap_data).   (* the dictionary *)

(** Lines 60-69: [dxy_mid], [dxy_vs_mid] and the window's minimum and
    maximum. *)
Definition dxy_window (current_dxy : option Q) (dxy_hist : option (list Q))
    (period_days : Z) : outcome (option Q * option Q * option (Q * Q)) :=
  match has_window dxy_hist period_days with
  | Some rows =>
      let recent_dxy := tail period_days rows in
      dxy_min <- col_min recent_dxy ;;
      dxy_max <- col_max recent_dxy ;;
      let dxy_mid := (dxy_min + dxy_max) / 2 in
      match truthy current_dxy with
      | Some d =>
          q <- divide DxyVsMid (d - dxy_mid) dxy_mid ;;
          Value (Some dxy_mid, Some (q * 100), Some (dxy_min, dxy_max))
      | None => Value (Some dxy_mid, None, Some (dxy_min, dxy_max))
      end
  | None => Value (None, None, None)
  end.

(** Lines 72-85: [current_gap_ratio], [mid_gap_ratio], [appropriate_rate].
    The three quotients are exact here and rounded in the program: which
    of the three are there is the same, their last digits are not. *)
Definition gap_ratios (current_rate rate_mid : Q) (current_dxy dxy_mid : option Q)
    : outcome (option Q * option Q * option Q) :=
  match truthy current_dxy with
  | Some d =>
      if Qgtb current_rate 0 then
        q <- divide CurrentGapRatio d current_rate ;;
        let current_gap_ratio := q * 100 in
        match truthy dxy_mid with
        | Some m =>
            q1 <- divide MidGapRatio m rate_mid ;;
            let mid_gap_ratio := q1 * 100 in
            q2 <- divide AppropriateRate d mid_gap_ratio ;;
            let appropriate_rate := q2 * 100 in
            Value (Some current_gap_ratio, Some mid_gap_ratio, Some appropriate_rate)
        | None => Value (Some current_gap_ratio, None, None)
        end
      else Value (None, None, None)
  | None => Value (None, None, None)
  end.

Definition calculate_dollar_gap_ratio (current_rate : Q) (rate_hist : option (list Q))
    (current_dxy : option Q) (dxy_hist : option (list Q)) (period_days : Z)
    : outcome gap_value :=
  match has_window rate_hist period_days with
  | None => Value NoneTuple
  | Some rows =>
      let recent_rate := tail period_days rows in
      rate_min <- col_min recent_rate ;;
      rate_max <- col_max recent_rate ;;
      let rate_mid := (rate_min + rate_max) / 2 in
      q <- divide RateVsMid (current_rate - rate_mid) rate_mid ;;
      let rate_vs_mid := q * 100 in
      '(dxy_mid, dxy_vs_mid, dxy_min_max) <- dxy_window current_dxy dxy_hist period_days ;;
      '(current_gap_ratio, mid_gap_ratio, appropriate_rate) <-
         gap_ratios current_rate rate_mid current_dxy dxy_mid ;;
      Value (GapDict {|
        rate_vs_mid := Some rate_vs_mid;
        dxy_vs_mid := dxy_vs_mid;
        current_gap_ratio := current_gap_ratio;
        mid_gap_ratio := mid_gap_ratio;
        appropriate_rate := appropriate_rate;
        rate_stats := {| current := Some current_rate; mid := rate_mid;
                         min := rate_min; max := rate_max |};
        dxy_stats :=
          match dxy_mid, dxy_min_max with
          | Some m, Some (lo, hi) =>
              Some {| current := current_dxy; mid := m; min := lo; max := hi |}
          | _, _ => None
          end
      |})
  end.

(* ================================================================== *)
(** ** analyze_dxy_trend *)

Local Open Scope string_scope.

Definition up : string := "상승".
Definition down : string := "하락".

Definition analyze_dxy_trend (dxy_hist : option (list Q))
    : outcome (option string * option string) :=
  match dxy_hist with
  | None => Value (None, None)
  | Some rows =>
      if (len rows <? 20)%Z then Value (None, None)
      else
        let recent := tail 20 rows in
        current <- iloc_last recent ;;
        ma20 <- col_mean recent ;;
        ma5 <- col_mean (tail 5 recent) ;;
        let trend := if Qgtb current ma20 then up else down in
        let short_trend := if Qgtb current ma5 then up else down in
        Value (Some trend, Some short_trend)
  end.

(* ================================================================== *)
(** ** get_investment_recommendation *)

(** One entry of the [recommendations] list.  The program stores a
    line of text; the embedding keeps what the line is built from: the
    number of the condition, the mark in front of it (a check mark for a
    satisfied condition, a cross otherwise) and the number the line
    prints, if it prints one. *)
Record evidence : Type := {
  condition : Z;
  satisfied : bool;
  margin : option Q
}.

(** The three local variables of the function. *)
Record tally : Type := {
  recommendations : list evidence;
  conditions_met : Z;
  total_conditions : Z
}.

(** [total_conditions += 1], then the line is appended and, for a
    satisfied condition, [conditions_met += 1]. *)
Definition record_condition (n : Z) (ok : bool) (shown : option Q) (t : tally) : tally :=
  {| recommendations :=
       recommendations t ++ [{| condition := n; satisfied := ok; margin := shown |}];
     conditions_met := if ok then (conditions_met t + 1)%Z else conditions_met t;
     total_conditions := (total_conditions t + 1)%Z |}.

(** Lines 142-148. *)
Definition condition1 (g : gap_data) (t : tally) : tally :=
  match rate_vs_mid g with
  | Some v =>
      if Qltb v 0 then record_condition 1 true None t
      else record_condition 1 false (Some v) t
  | None => t
  end.

(** Lines 151-157. *)
Definition condition2 (g : gap_data) (t : tally) : tally :=
  match dxy_vs_mid g with
  | Some v =>
      if Qltb v 0 then record_condition 2 true None t
      else record_condition 2 false (Some v) t
  | None => t
  end.

(** Lines 160-167. *)
Definition condition3 (g : gap_data) (t : tally) : tally :=
  match current_gap_ratio g, mid_gap_ratio g with
  | Some c, Some m =>
      let gap_diff := c - m in
      record_condition 3 (Qgtb gap_diff 0) (Some gap_diff) t
  | _, _ => t
  end.

(** Lines 170-178. *)
Definition condition4 (g : gap_data) (t : tally) : outcome tally :=
  match appropriate_rate g, current (rate_stats g) with
  | Some a, Some c =>
      let rate_diff := c - a in
      q <- divide RateDiffPct rate_diff a ;;
      let rate_diff_pct := q * 100 in
      Value (record_condition 4 (Qltb rate_diff 0) (Some rate_diff_pct) t)
  | _, _ => Value t
  end.

(** Lines 137-178. *)
Definition evaluate_conditions (g : gap_data) : outcome tally :=
  let t := {| recommendations := []; conditions_met := 0; total_conditions := 0 |} in
  let t := condition1 g t in
  let t := condition2 g t in
  let t := condition3 g t in
  condition4 g t.

(** [f"{n}"] for an integer. *)
Definition str (n : Z) : string := NilZero.string_of_int (Z.to_int n).

Definition insufficient_data : string := "데이터 부족".
Definition strong_buy : string := "🟢 매수 추천".
Definition buy_consider : string := "🟡 매수 고려".
Definition hold : string := "⚪ 보유/관망".
Definition caution : string := "🟠 매수 신중".
Definition avoid : string := "🔴 매수 비추천".

Definition not_enough : string := "분석에 필요한 데이터가 충분하지 않습니다.".

(** [n >= total * f] for integers [n], [total] and a float literal [f]. *)
Definition at_least (n total : Z) (f : Q) : bool :=
  Qle_bool (inject_Z total * f) (inject_Z n).

(** Lines 181-198: [decision]. *)
Definition final_decision (conditions_met total_conditions : Z) : string :=
  if (total_conditions =? 0)%Z then insufficient_data
  else if (conditions_met =? total_conditions)%Z then strong_buy
  else if at_least conditions_met total_conditions 0.75 then buy_consider
  else if at_least conditions_met total_conditions 0.5 then hold
  else if at_least conditions_met total_conditions 0.25 then caution
  else avoid.

(** Lines 181-198: [explanation]. *)
Definition final_explanation (conditions_met total_conditions : Z) : string :=
  if (total_conditions =? 0)%Z then not_enough
  else if (conditions_met =? total_conditions)%Z then
    "4가지 조건 중 " ++ str conditions_met
      ++ "개를 모두 만족합니다. 달러 투자에 매우 유리한 시점입니다."
  else if at_least conditions_met total_conditions 0.75 then
    "4가지 조건 중 " ++ str conditions_met
      ++ "개를 만족합니다. 달러 투자를 고려해볼 수 있는 시점입니다."
  else if at_least conditions_met total_conditions 0.5 then
    "4가지 조건 중 " ++ str conditions_met ++ "개를 만족합니다. 중립적인 시점입니다."
  else if at_least conditions_met total_conditions 0.25 then
    "4가지 조건 중 " ++ str conditions_met
      ++ "개만 만족합니다. 달러 투자에 다소 불리할 수 있습니다."
  else
    "4가지 조건 중 " ++ str conditions_met
      ++ "개만 만족합니다. 달러 투자에 불리한 시점입니다.".

(** The tuple the function returns:
    [decision, explanation, recommendations, conditions_met]. *)
Record recommendation : Type := {
  decision : string;
  explanation : string;
  rec_recommendations : list evidence;
  rec_conditions_met : Z
}.

Definition get_investment_recommendation (gap_data : gap_value) : outcome recommendation :=
  match gap_data with
  | PyNone =>
      Value {| decision := insufficient_data; explanation := not_enough;
               rec_recommendations := []; rec_conditions_met := 0 |}
  | NoneTuple => Raise TypeError
  | GapDict g =>
      t <- evaluate_conditions g ;;
      Value {| decision := final_decision (conditions_met t) (total_conditions t);
               explanation := final_explanation (conditions_met t) (total_conditions t);
               rec_recommendations := recommendations t;
               rec_conditions_met := conditions_met t |}
  end.

(* ================================================================== *)
(** ** calculate_investment_details and the scenario table *)

(** The dictionary [calculate_investment_details] returns. *)
Record investment_details : Type := {
  investment_amount : Q;
  current_rate : Q;
  dollar_amount : Q;
  fee : Q;
  net_investment : Q;
  net_dollar : Q;
  fee_rate : Q
}.

Definition calculate_investment_details (investment_amount : Q) (current_rate : option Q)
    : outcome (option investment_details) :=
  match current_rate with
  | None => Value None
  | Some current_rate =>
      dollar_amount <- divide DollarAmount investment_amount current_rate ;;
      let fee_rate := 0.002 in
      let fee := investment_amount * fee_rate in
      let net_investment := investment_amount - fee in
      net_dollar <- divide NetDollar net_investment current_rate ;;
      Value (Some {|
        investment_amount := investment_amount;
        current_rate := current_rate;
        dollar_amount := dollar_amount;
        fee := fee;
        net_investment := net_investment;
        net_dollar := net_dollar;
        fee_rate := fee_rate * 100
      |})
  end.






(* ================================================================== *)
(** ** get_exchange_rate, get_dxy_index *)

(** What [ticker.history(period="1y")] does: it raises, or it returns a
    frame. *)
Inductive history : Type :=
| Fails
| Frame (hist : list Q).

(** [try: c  except Exception: return handler] *)
Definition try_except {A : Type} (c : outcome A) (handler : A) : outcome A :=
  match c with
  | Value a => Value a
  | Raise _ => Value handler
  end.

Definition get_exchange_rate (h : history) : outcome (option Q * option (list Q)) :=
  match h with
  | Fails => Value (None, None)
  | Frame hist =>
      try_except
        match hist with
        | [] => Value (None, None)
        | _ => current_rate <- iloc_last hist ;; Value (Some current_rate, Some hist)
        end
        (None, None)
  end.

Definition get_dxy_index (h : history) : outcome (option Q * option (list Q)) :=
  match h with
  | Fails => Value (None, None)
  | Frame hist =>
      try_except
        match hist with
        | [] => Value (None, None)
        | _ => current_dxy <- iloc_last hist ;; Value (Some current_dxy, Some hist)
        end
        (None, None)
  end.

(* ================================================================== *)
(** ** The page *)

(** The keys of [st.session_state] the page uses: "analyze",
    "investment_amount", "period_days".  A key that is not in the
    dictionary is None here. *)
Record session_state : Type := {
  ss_analyze : option bool;
  ss_investment_amount : option Q;
  ss_period_days : option Z
}.

(** The button pressed in one run of the script, if any. *)
Inductive click : Type :=
| NoClick
| ClickAnalyze
| ClickReset.

(** The [options] of the select box. *)
Definition period_options : list Z := [126; 252; 504]%Z.

(** Lines 264-275: the two buttons of the side bar, with the values of
    the number input and of the select box in this run. *)
Definition sidebar (investment_amount : Q) (period_days : Z) (c : click)
    (s : session_state) : session_state :=
  match c with
  | ClickAnalyze =>
      if Qle_bool investment_amount 0 then s
      else {| ss_analyze := Some true;
              ss_investment_amount := Some investment_amount;
              ss_period_days := Some period_days |}
  | ClickReset =>
      {| ss_analyze := None;
         ss_investment_amount := ss_investment_amount s;
         ss_period_days := ss_period_days s |}
  | NoClick => s
  end.

(** Lines 278-280: [st.session_state.get('analyze', False)] and, when it
    is true, the amount and the window length the analysis runs with. *)
Definition main_inputs (s : session_state) : option (Q * Z) :=
  match ss_analyze s with
  | Some true =>
      Some (match ss_investment_amount s with Some a => a | None => 0 end,
            match ss_period_days s with Some p => p | None => 252%Z end)
  | _ => None
  end.

(** What the main area has computed before it draws (lines 283-302). *)
Record analysis : Type := {
  page_current_rate : Q;
  page_current_dxy : option Q;
  page_gap_data : gap_value;
  page_dxy_trend : option string * option string;
  page_recommendation : recommendation;
  page_investment_details : option investment_details
}.

Inductive page : Type :=
| Idle                      (* st.info: nothing asked yet *)
| RateUnavailable           (* st.error: no exchange rate *)
| Analysed (a : analysis).

(** Lines 282-302. *)
Definition run_analysis (investment_amount : Q) (period_days : Z)
    (rate_history dxy_history : history) : outcome page :=
  '(current_rate, rate_hist) <- get_exchange_rate rate_history ;;
  '(current_dxy, dxy_hist) <- get_dxy_index dxy_history ;;
  match current_rate with
  | None => Value RateUnavailable
  | Some current_rate =>
      gap_data <- calculate_dollar_gap_ratio
                    current_rate rate_hist current_dxy dxy_hist period_days ;;
      dxy_trend <- analyze_dxy_trend dxy_hist ;;
      r <- get_investment_recommendation gap_data ;;
      investment_details <-
        calculate_investment_details investment_amount (Some current_rate) ;;
      Value (Analysed {|
        page_current_rate := current_rate;
        page_current_dxy := current_dxy;
        page_gap_data := gap_data;
        page_dxy_trend := dxy_trend;
        page_recommendation := r;
        page_investment_details := investment_details |})
  end.

(** Lines 278-302 and 586: the main area of one run. *)
Definition main_area (s : session_state) (rate_history dxy_history : history)
    : outcome page :=
  match main_inputs s with
  | Some (investment_amount, period_days) =>
      run_analysis investment_amount period_days rate_history dxy_history
  | None => Value Idle
  end.

(** [d.get(key, default)] on a dictionary written as its items. *)
Fixpoint dict_get (d : list (string * string)) (key default : string) : string :=
  match d with
  | [] => default
  | (k, v) :: rest => if (k =? key)%string then v else dict_get rest key default
  end.

(** Lines 366-372. *)
Definition decision_color (decision : string) : string :=
  dict_get [("🟢 매수 추천", "success");
            ("🟡 매수 고려", "info");
            ("⚪ 보유/관망", "");
            ("🟠 매수 신중", "warning");
            ("🔴 매수 비추천", "error")] decision "".

(** The call that draws the decision. *)
Inductive box : Type :=
| StSuccess
| StInfo
| StWarning
| StError
| StMarkdown.

(** Lines 374-383. *)
Definition decision_box (decision : string) : box :=
  let decision_color := decision_color decision in
  if (decision_color =? "success")%string then StSuccess
  else if (decision_color =? "info")%string then StInfo
  else if (decision_color =? "warning")%string then StWarning
  else if (decision_color =? "error")%string then StError
  else StMarkdown.

(* ================================================================== *)
(** * The calculator and the trend on binary64 numbers *)

(** The same lines of [calculate_dollar_gap_ratio] and
    [analyze_dxy_trend] with the numbers the program has: binary64
    floats, every operation rounded.  The values come out of pandas
    frames as numpy floats, so a division by zero gives an infinity or
    nan and the run goes on, and the minimum, maximum or mean of an
    empty column is nan: nothing raises here. *)
Module Binary64.

Import PrimFloat.
Local Open Scope float_scope.

(** [if x:] for a number that may be None: None, 0.0 and -0.0 are
    false; every other number, nan and the infinities too, is true. *)
Definition truthy (x : option float) : option float :=
  match x with
  | Some v => if v =? 0 then None else Some v
  | None => None
  end.

(** [len(df)] *)
Definition len {A : Type} (df : list A) : Z := Z.of_nat (List.length df).

(** [df.tail(n)] *)
Definition tail {A : Type} (n : Z) (df : list A) : list A :=
  if (n =? 0)%Z then []
  else if (0 <? n)%Z then skipn (List.length df - Z.to_nat n)%nat df
  else skipn (Z.to_nat (- n)) df.

(** [df is not None and len(df) >= period_days] *)
Definition has_window {A : Type} (df : option (list A)) (period_days : Z)
    : option (list A) :=
  match df with
  | Some rows => if (period_days <=? len rows)%Z then Some rows else None
  | None => None
  end.

(** The values pandas works on: nan, the one number that is not equal
    to itself, is skipped. *)
Definition skipna (col : list float) : list float :=
  filter (fun x => x =? x) col.

(** [col.min()] *)
Definition col_min (col : list float) : float :=
  match skipna col with
  | [] => nan
  | x :: rest => fold_left (fun m y => if y <? m then y else m) rest x
  end.

(** [col.max()] *)
Definition col_max (col : list float) : float :=
  match skipna col with
  | [] => nan
  | x :: rest => fold_left (fun m y => if m <? y then y else m) rest x
  end.

(** [col.mean()]: the sum, added up one value after the other from
    0.0, divided by the number of values.  numpy adds in another order
    from 8 values on; the property of the trend labels below is stated for
    any function in the place of this one. *)
Definition col_mean (col : list float) : float :=
  fold_left add (skipna col) 0 / fold_left (fun c _ => c + 1) (skipna col) 0.

(** [col.iloc[-1]] *)
Fixpoint iloc_last {A : Type} (col : list A) : outcome A :=
  match col with
  | [] => Raise IndexError
  | [x] => Value x
  | _ :: rest => iloc_last rest
  end.

Record window_stats : Type := {
  current : option float;
  mid : float;
  min : float;
  max : float
}.

Record gap_data : Type := {
  rate_vs_mid : option float;
  dxy_vs_mid : option float;
  current_gap_ratio : option float;
  mid_gap_ratio : option float;
  appropriate_rate : option float;
  rate_stats : window_stats;
  dxy_stats : option window_stats
}.

Inductive gap_value : Type :=
| NoneTuple                 (* (None, None, None, None, None) *)
| GapDict (g : gap_data).   (* the dictionary *)

Definition calculate_dollar_gap_ratio (current_rate : float)
    (rate_hist : option (list float)) (current_dxy : option float)
    (dxy_hist : option (list float)) (period_days : Z) : gap_value :=
  match has_window rate_hist period_days with
  | None => NoneTuple
  | Some rows =>
      let recent_rate := tail period_days rows in
      let rate_min := col_min recent_rate in
      let rate_max := col_max recent_rate in
      let rate_mid := (rate_min + rate_max) / 2 in
      let rate_vs_mid := ((current_rate - rate_mid) / rate_mid) * 100 in
      (* lines 60-69 *)
      let recent_dxy := option_map (tail period_days) (has_window dxy_hist period_days) in
      let dxy_mid :=
        option_map (fun recent => (col_min recent + col_max recent) / 2) recent_dxy in
      let dxy_vs_mid :=
        match dxy_mid, truthy current_dxy with
        | Some m, Some d => Some (((d - m) / m) * 100)
        | _, _ => None
        end in
      (* lines 72-85 *)
      let '(current_gap_ratio, mid_gap_ratio, appropriate_rate) :=
        match truthy current_dxy with
        | Some d =>
            if 0 <? current_rate then
              let current_gap_ratio := (d / current_rate) * 100 in
              match truthy dxy_mid with
              | Some m =>
                  let mid_gap_ratio := (m / rate_mid) * 100 in
                  let appropriate_rate := (d / mid_gap_ratio) * 100 in
                  (Some current_gap_ratio, Some mid_gap_ratio, Some appropriate_rate)
              | None => (Some current_gap_ratio, None, None)
              end
            else (None, None, None)
        | None => (None, None, None)
        end in
      GapDict {|
        rate_vs_mid := Some rate_vs_mid;
        dxy_vs_mid := dxy_vs_mid;
        current_gap_ratio := current_gap_ratio;
        mid_gap_ratio := mid_gap_ratio;
        appropriate_rate := appropriate_rate;
        rate_stats := {| current := Some current_rate; mid := rate_mid;
                         min := rate_min; max := rate_max |};
        dxy_stats :=
          option_map
            (fun recent =>
               {| current := current_dxy;
                  mid := (col_min recent + col_max recent) / 2;
                  min := col_min recent;
                  max := col_max recent |})
            recent_dxy
      |}
  end.

(** [analyze_dxy_trend], with the function that computes [.mean()] as
    an argument. *)
Definition analyze_dxy_trend_with (mean : list float -> float)
    (dxy_hist : option (list float)) : outcome (option string * option string) :=
  match dxy_hist with
  | None => Value (None, None)
  | Some rows =>
      if (len rows <? 20)%Z then Value (None, None)
      else
        let recent := tail 20 rows in
        current <- iloc_last recent ;;
        let ma20 := mean recent in
        let ma5 := mean (tail 5 recent) in
        let trend := if ma20 <? current then up else down in
        let short_trend := if ma5 <? current then up else down in
        Value (Some trend, Some short_trend)
  end.

Definition analyze_dxy_trend (dxy_hist : option (list float))
    : outcome (option string * option string) :=
  analyze_dxy_trend_with col_mean dxy_hist.

End Binary64.

Local Close Scope string_scope.
Local Open Scope list_scope.
Local Open Scope Q_scope.

(* ================================================================== *)
(** * Words of the specification *)

(** A price series: closing values are positive. *)
Definition positive_series (col : list Q) : Prop := Forall (fun x => 0 < x) col.


(** [m] is the least (greatest) value of a column. *)
Definition least (m : Q) (col : list Q) : Prop :=
  In m col /\ forall x, In x col -> m <= x.
Definition greatest (m : Q) (col : list Q) : Prop :=
  In m col /\ forall x, In x col -> x <= m.

(** [len] of a frame that may be None, None counting for no observation. *)
Definition observations (df : option (list Q)) : Z :=
  match df with
  | Some rows => len rows
  | None => 0
  end.

(** [x is not None] *)
Definition present {A : Type} (x : option A) : bool :=
  match x with
  | Some _ => true
  | None => false
  end.

(** The inputs condition [k] needs are in the dictionary. *)
Definition inputs_present (g : gap_data) (k : Z) : bool :=
  if (k =? 1)%Z then present (rate_vs_mid g)
  else if (k =? 2)%Z then present (dxy_vs_mid g)
  else if (k =? 3)%Z then present (current_gap_ratio g) && present (mid_gap_ratio g)
  else if (k =? 4)%Z then present (appropriate_rate g) && present (current (rate_stats g))
  else false.

(** The number of conditions evaluated: [total_conditions] is a local
    variable, and the returned tuple shows it as the length of its list,
    one entry for each condition evaluated. *)
Definition conditions_total (r : recommendation) : Z :=
  Z.of_nat (List.length (rec_recommendations r)).

(** The two counters agree with the list built so far. *)
Definition counted (t : tally) : Prop :=
  total_conditions t = Z.of_nat (List.length (recommendations t)) /\
  conditions_met t = Z.of_nat (List.length (filter satisfied (recommendations t))).

(** The numbers of the conditions in the list, in the order of the list. *)
Definition numbers (t : tally) : list Z := map condition (recommendations t).

(** Condition [k] if its inputs are there, nothing otherwise. *)
Definition when (b : bool) (k : Z) : list Z := if b then [k] else [].

(** The decision as the specification words it: thresholds on the ratio
    conditions_met / conditions_total, tried in the fixed order. *)
Definition decision_rule (met total : Z) : string :=
  if (total =? 0)%Z then insufficient_data
  else if (met =? total)%Z then strong_buy
  else
    let ratio := inject_Z met / inject_Z total in
    if Qle_bool 0.75 ratio then buy_consider
    else if Qle_bool 0.5 ratio then hold
    else if Qle_bool 0.25 ratio then caution
    else avoid.



(** The place of a decision on the scale from avoid to buy. *)
Definition strength (decision : string) : Z :=
  if String.eqb decision avoid then 0
  else if String.eqb decision caution then 1
  else if String.eqb decision hold then 2
  else if String.eqb decision buy_consider then 3
  else if String.eqb decision strong_buy then 4
  else (-1).

(** The session after a sequence of runs, each with the values of the two
    inputs and the button pressed, starting from an empty session. *)
Definition session_after (runs : list (Q * Z * click)) : session_state :=
  fold_left (fun s '(amount, period, c) => sidebar amount period c s) runs
    {| ss_analyze := None; ss_investment_amount := None; ss_period_days := None |}.

(** What the stored keys must be like for an analysis to run: a
    positive amount and one of the window lengths on offer. *)
Definition valid_session (s : session_state) : Prop :=
  ss_analyze s = Some true ->
  exists a p,
    ss_investment_amount s = Some a /\ 0 < a /\
    ss_period_days s = Some p /\ In p period_options.

(** The most recent [n] rows of a column of any kind of value. *)
Definition last_rows {A : Type} (n : nat) (col : list A) : list A :=
  rev (firstn n (rev col)).

(* ================================================================== *)
(** * Properties *)

(** ** Outcomes *)

Lemma bind_value {A B : Type} (c : outcome A) (k : A -> outcome B) (b : B) :
  bind c k = Value b -> exists a, c = Value a /\ k a = Value b.
Proof. destruct c as [a|f]; simpl; [eauto | discriminate]. Qed.

Lemma bind_raise {A B : Type} (c : outcome A) (k : A -> outcome B) (f : fault) :
  bind c k = Raise f -> c = Raise f \/ exists a, c = Value a /\ k a = Raise f.
Proof. destruct c as [a|f']; simpl; [eauto | intros [= ->]; auto]. Qed.

Ltac bind_inv H :=
  let a := fresh "a" in
  let E := fresh "E" in
  apply bind_value in H; destruct H as (a & E & H).

(** ** Numbers *)

Lemma Qgtb_true x y : Qgtb x y = true <-> y < x.
Proof.
  unfold Qgtb. rewrite negb_true_iff, <- not_true_iff_false, Qle_bool_iff.
  split; [apply Qnot_le_lt | apply Qlt_not_le].
Qed.

Lemma Qgtb_false x y : Qgtb x y = false <-> x <= y.
Proof. unfold Qgtb. rewrite negb_false_iff. apply Qle_bool_iff. Qed.


Lemma Qltb_false x y : Qltb x y = false <-> y <= x.
Proof. apply (Qgtb_false y x). Qed.

Lemma Qeq_bool_false x y : Qeq_bool x y = false <-> ~ x == y.
Proof.
  rewrite <- not_true_iff_false, Qeq_bool_iff. reflexivity.
Qed.

Lemma divide_value d x y q : divide d x y = Value q -> ~ y == 0 /\ q = x / y.
Proof.
  unfold divide. destruct (Qeq_bool y 0) eqn:E; [discriminate|].
  intros [= <-]. split; [now apply Qeq_bool_false | reflexivity].
Qed.

Lemma divide_nonzero d x y : ~ y == 0 -> divide d x y = Value (x / y).
Proof.
  intros H. unfold divide. apply Qeq_bool_false in H. now rewrite H.
Qed.

Lemma divide_raise d x y f : divide d x y = Raise f -> f = DivisionByZero d /\ y == 0.
Proof.
  unfold divide. destruct (Qeq_bool y 0) eqn:E; [|discriminate].
  intros [= <-]. split; [reflexivity | now apply Qeq_bool_iff].
Qed.

Lemma truthy_some x v : truthy x = Some v -> x = Some v /\ ~ v == 0.
Proof.
  destruct x as [w|]; simpl; [|discriminate].
  destruct (Qeq_bool w 0) eqn:E; [discriminate|].
  intros [= <-]. split; [reflexivity | now apply Qeq_bool_false].
Qed.

Lemma truthy_none x : truthy x = None -> x = None \/ exists v, x = Some v /\ v == 0.
Proof.
  destruct x as [w|]; simpl; [|auto].
  destruct (Qeq_bool w 0) eqn:E; [|discriminate].
  intros _. right. exists w. split; [reflexivity | now apply Qeq_bool_iff].
Qed.

Lemma truthy_nonzero v : ~ v == 0 -> truthy (Some v) = Some v.
Proof. intros H. simpl. apply Qeq_bool_false in H. now rewrite H. Qed.

Lemma ratio_nonzero m r : ~ m == 0 -> ~ r == 0 -> ~ m / r * 100 == 0.
Proof.
  intros Hm Hr H. apply Hm.
  assert (E : m == (m / r * 100) * r / 100) by (field; exact Hr).
  rewrite E, H. field.
Qed.

(** ** Frames *)

Lemma has_window_some df n rows :
  has_window df n = Some rows <-> df = Some rows /\ (n <= len rows)%Z.
Proof.
  destruct df as [r|]; simpl.
  - destruct (Z.leb_spec n (len r)); split.
    + intros [= ->]. auto.
    + intros [[= ->] _]. reflexivity.
    + discriminate.
    + intros [[= ->] ?]. lia.
  - split; [discriminate | intros [? _]; discriminate].
Qed.

Lemma has_window_none df n :
  has_window df n = None <-> df = None \/ exists rows, df = Some rows /\ (len rows < n)%Z.
Proof.
  destruct df as [r|]; simpl.
  - destruct (Z.leb_spec n (len r)); split.
    + discriminate.
    + intros [?|(rows & [= ->] & ?)]; [discriminate | lia].
    + intros _. right. eauto.
    + reflexivity.
  - split; auto.
Qed.

Lemma tail_positive n df :
  (0 < n)%Z -> tail n df = skipn (List.length df - Z.to_nat n) df.
Proof.
  intros H. unfold tail.
  destruct (Z.eqb_spec n 0); [lia|].
  destruct (Z.ltb_spec 0 n); [reflexivity | lia].
Qed.


Lemma tail_length n df :
  (0 < n <= len df)%Z -> List.length (tail n df) = Z.to_nat n.
Proof.
  intros [H1 H2]. rewrite tail_positive by exact H1.
  rewrite length_skipn. unfold len in H2. lia.
Qed.

Lemma tail_In n df x : In x (tail n df) -> In x df.
Proof.
  unfold tail. destruct (n =? 0)%Z; [intros []|].
  destruct (0 <? n)%Z; intros H;
    match type of H with In _ (skipn ?k _) =>
      rewrite <- (firstn_skipn k df); apply in_or_app; right; exact H end.
Qed.

Lemma tail_positive_series n df : positive_series df -> positive_series (tail n df).
Proof.
  unfold positive_series. rewrite !Forall_forall.
  intros H x Hx. apply H. eapply tail_In, Hx.
Qed.

Lemma tail_tail n k df :
  (0 < k <= n)%Z -> (n <= len df)%Z -> tail k (tail n df) = tail k df.
Proof.
  intros Hk Hn.
  assert (L : List.length (tail n df) = Z.to_nat n) by (apply tail_length; lia).
  rewrite (tail_positive k) by lia. rewrite L.
  rewrite (tail_positive n) by lia. rewrite (tail_positive k) by lia.
  rewrite skipn_skipn. f_equal. unfold len in Hn. lia.
Qed.

Lemma col_min_cons x y rest :
  col_min (x :: y :: rest) = (m <- col_min (y :: rest) ;; Value (Qmin x m)).
Proof. reflexivity. Qed.

Lemma col_max_cons x y rest :
  col_max (x :: y :: rest) = (m <- col_max (y :: rest) ;; Value (Qmax x m)).
Proof. reflexivity. Qed.

Lemma Qmin_cases x y : (Qmin x y = x /\ x <= y) \/ (Qmin x y = y /\ y <= x).
Proof.
  unfold Qmin, GenericMinMax.gmin.
  destruct (x ?= y) eqn:E.
  - left. split; [reflexivity|]. apply Qeq_alt in E. rewrite E. apply Qle_refl.
  - left. split; [reflexivity|]. apply Qlt_alt in E. now apply Qlt_le_weak.
  - right. split; [reflexivity|]. apply Qgt_alt in E. now apply Qlt_le_weak.
Qed.

Lemma Qmax_cases x y : (Qmax x y = x /\ y <= x) \/ (Qmax x y = y /\ x <= y).
Proof.
  unfold Qmax, GenericMinMax.gmax.
  destruct (x ?= y) eqn:E.
  - left. split; [reflexivity|]. apply Qeq_alt in E. rewrite E. apply Qle_refl.
  - right. split; [reflexivity|]. apply Qlt_alt in E. now apply Qlt_le_weak.
  - left. split; [reflexivity|]. apply Qgt_alt in E. now apply Qlt_le_weak.
Qed.

(** On a column with a row, [min()] returns its least value. *)
Lemma col_min_least col :
  col <> [] -> exists m, col_min col = Value m /\ least m col.
Proof.
  induction col as [|x [|y rest] IH]; intros H.
  - contradiction.
  - exists x. split; [reflexivity|]. split; [now left|].
    intros z [<-|[]]. apply Qle_refl.
  - destruct IH as (m & E & Hin & Hle); [discriminate|].
    rewrite col_min_cons, E. simpl bind.
    exists (Qmin x m). split; [reflexivity|].
    destruct (Qmin_cases x m) as [[-> L]|[-> L]]; split.
    + now left.
    + intros z [<-|Hz]; [apply Qle_refl|]. eapply Qle_trans; [exact L | now apply Hle].
    + now right.
    + intros z [<-|Hz]; [exact L | now apply Hle].
Qed.

(** On a column with a row, [max()] returns its greatest value. *)
Lemma col_max_greatest col :
  col <> [] -> exists m, col_max col = Value m /\ greatest m col.
Proof.
  induction col as [|x [|y rest] IH]; intros H.
  - contradiction.
  - exists x. split; [reflexivity|]. split; [now left|].
    intros z [<-|[]]. apply Qle_refl.
  - destruct IH as (m & E & Hin & Hle); [discriminate|].
    rewrite col_max_cons, E. simpl bind.
    exists (Qmax x m). split; [reflexivity|].
    destruct (Qmax_cases x m) as [[-> L]|[-> L]]; split.
    + now left.
    + intros z [<-|Hz]; [apply Qle_refl|]. eapply Qle_trans; [now apply Hle | exact L].
    + now right.
    + intros z [<-|Hz]; [exact L | now apply Hle].
Qed.

Lemma col_min_raise col f : col_min col = Raise f -> f = NotANumber.
Proof.
  destruct col as [|x rest]; [now intros [= <-]|].
  destruct (col_min_least (x :: rest)) as (m & E & _); [discriminate|]. congruence.
Qed.

Lemma col_max_raise col f : col_max col = Raise f -> f = NotANumber.
Proof.
  destruct col as [|x rest]; [now intros [= <-]|].
  destruct (col_max_greatest (x :: rest)) as (m & E & _); [discriminate|]. congruence.
Qed.

Lemma col_min_value col m : col_min col = Value m -> least m col.
Proof.
  intros E. destruct col as [|x rest]; [discriminate|].
  destruct (col_min_least (x :: rest)) as (m' & E' & H); [discriminate|].
  rewrite E in E'. now injection E' as ->.
Qed.

Lemma col_max_value col m : col_max col = Value m -> greatest m col.
Proof.
  intros E. destruct col as [|x rest]; [discriminate|].
  destruct (col_max_greatest (x :: rest)) as (m' & E' & H); [discriminate|].
  rewrite E in E'. now injection E' as ->.
Qed.

Lemma tail_nonempty n df : (0 < n <= len df)%Z -> tail n df <> [].
Proof.
  intros H E. apply tail_length in H as L. rewrite E in L. simpl in L. lia.
Qed.

(** The midpoint of a window of positive values is positive. *)
Lemma midpoint_positive col lo hi :
  positive_series col -> least lo col -> greatest hi col -> 0 < (lo + hi) / 2.
Proof.
  unfold positive_series. rewrite Forall_forall.
  intros P [Hlo _] [Hhi _].
  apply P in Hlo. apply P in Hhi.
  apply Qlt_shift_div_l; lra.
Qed.

(** ** The steps of calculate_dollar_gap_ratio *)

(** What [dxy_window] has computed when it returns. *)
Lemma dxy_window_value cd dh n dm dvm dmm :
  dxy_window cd dh n = Value (dm, dvm, dmm) ->
  match has_window dh n with
  | Some rows =>
      exists lo hi,
        col_min (tail n rows) = Value lo /\ col_max (tail n rows) = Value hi /\
        dm = Some ((lo + hi) / 2) /\ dmm = Some (lo, hi) /\
        match truthy cd with
        | Some d => ~ (lo + hi) / 2 == 0 /\ dvm = Some ((d - (lo + hi) / 2) / ((lo + hi) / 2) * 100)
        | None => dvm = None
        end
  | None => dm = None /\ dvm = None /\ dmm = None
  end.
Proof.
  unfold dxy_window. destruct (has_window dh n) as [rows|].
  - intros H. bind_inv H. bind_inv H. exists a, a0.
    destruct (truthy cd) as [d|].
    + bind_inv H. apply divide_value in E1 as [Hz ->].
      injection H as <- <- <-. auto 10.
    + injection H as <- <- <-. auto 10.
  - intros [= <- <- <-]. auto.
Qed.

(** What [gap_ratios] has computed when it returns. *)
Lemma gap_ratios_value cr rm cd dm c m a :
  gap_ratios cr rm cd dm = Value (c, m, a) ->
  match truthy cd with
  | Some d =>
      if Qgtb cr 0 then
        c = Some (d / cr * 100) /\
        match truthy dm with
        | Some x =>
            ~ rm == 0 /\ ~ x / rm * 100 == 0 /\
            m = Some (x / rm * 100) /\ a = Some (d / (x / rm * 100) * 100)
        | None => m = None /\ a = None
        end
      else c = None /\ m = None /\ a = None
  | None => c = None /\ m = None /\ a = None
  end.
Proof.
  unfold gap_ratios. destruct (truthy cd) as [d|].
  - destruct (Qgtb cr 0).
    + intros H. bind_inv H. apply divide_value in E as [_ ->].
      destruct (truthy dm) as [x|].
      * bind_inv H. apply divide_value in E as [Hr ->].
        bind_inv H. apply divide_value in E as [Hm ->].
        injection H as <- <- <-. auto.
      * injection H as <- <- <-. auto.
    + intros [= <- <- <-]. auto.
  - intros [= <- <- <-]. auto.
Qed.

(** What the function has computed when it returns the dictionary. *)
Lemma calculate_value cr rh cd dh n g :
  calculate_dollar_gap_ratio cr rh cd dh n = Value (GapDict g) ->
  exists rows lo hi dm dmm,
    has_window rh n = Some rows /\
    col_min (tail n rows) = Value lo /\ col_max (tail n rows) = Value hi /\
    ~ (lo + hi) / 2 == 0 /\
    rate_vs_mid g = Some ((cr - (lo + hi) / 2) / ((lo + hi) / 2) * 100) /\
    rate_stats g = {| current := Some cr; mid := (lo + hi) / 2; min := lo; max := hi |} /\
    dxy_window cd dh n = Value (dm, dxy_vs_mid g, dmm) /\
    gap_ratios cr ((lo + hi) / 2) cd dm
      = Value (current_gap_ratio g, mid_gap_ratio g, appropriate_rate g) /\
    dxy_stats g =
      match dm, dmm with
      | Some m, Some (l, h) => Some {| current := cd; mid := m; min := l; max := h |}
      | _, _ => None
      end.
Proof.
  unfold calculate_dollar_gap_ratio.
  destruct (has_window rh n) as [rows|]; [|discriminate].
  intros H. bind_inv H. bind_inv H. bind_inv H.
  apply divide_value in E1 as [Hz ->].
  bind_inv H. destruct a1 as [[dm dvm] dmm].
  bind_inv H. destruct a1 as [[c m] ap].
  injection H as <-. simpl.
  exists rows, a, a0, dm, dmm. auto 10.
Qed.

(** The function returns the dictionary once the rate window is there,
    its midpoint is not zero, and the two later steps return. *)
Lemma calculate_returns cr rh cd dh n rows lo hi dm dvm dmm c m a :
  has_window rh n = Some rows ->
  col_min (tail n rows) = Value lo -> col_max (tail n rows) = Value hi ->
  ~ (lo + hi) / 2 == 0 ->
  dxy_window cd dh n = Value (dm, dvm, dmm) ->
  gap_ratios cr ((lo + hi) / 2) cd dm = Value (c, m, a) ->
  calculate_dollar_gap_ratio cr rh cd dh n = Value (GapDict {|
    rate_vs_mid := Some ((cr - (lo + hi) / 2) / ((lo + hi) / 2) * 100);
    dxy_vs_mid := dvm;
    current_gap_ratio := c;
    mid_gap_ratio := m;
    appropriate_rate := a;
    rate_stats := {| current := Some cr; mid := (lo + hi) / 2; min := lo; max := hi |};
    dxy_stats :=
      match dm, dmm with
      | Some x, Some (l, h) => Some {| current := cd; mid := x; min := l; max := h |}
      | _, _ => None
      end |}).
Proof.
  intros W L H Z D G. unfold calculate_dollar_gap_ratio.
  rewrite W, L. simpl bind. rewrite H. simpl bind.
  rewrite divide_nonzero by exact Z. simpl bind.
  rewrite D. simpl bind. rewrite G. reflexivity.
Qed.

(** A history shorter than the window, or no history: the function
    returns the tuple of five None. *)
Lemma calculate_short cr rh cd dh n :
  has_window rh n = None ->
  calculate_dollar_gap_ratio cr rh cd dh n = Value NoneTuple.
Proof. intros W. unfold calculate_dollar_gap_ratio. now rewrite W. Qed.

(** The rate side of a positive series: minimum, maximum, positive midpoint. *)
Lemma window_of_positive_series n rows :
  (0 < n <= len rows)%Z -> positive_series rows ->
  exists lo hi,
    col_min (tail n rows) = Value lo /\ col_max (tail n rows) = Value hi /\
    least lo (tail n rows) /\ greatest hi (tail n rows) /\ 0 < (lo + hi) / 2.
Proof.
  intros Hn P.
  destruct (col_min_least (tail n rows)) as (lo & E1 & L); [now apply tail_nonempty|].
  destruct (col_max_greatest (tail n rows)) as (hi & E2 & G); [now apply tail_nonempty|].
  exists lo, hi. split; [exact E1|]. split; [exact E2|].
  split; [exact L|]. split; [exact G|].
  apply (midpoint_positive (tail n rows)); auto using tail_positive_series.
Qed.

Lemma has_window_short df n :
  (0 < n)%Z -> (observations df < n)%Z -> has_window df n = None.
Proof.
  intros Hn H. apply has_window_none. destruct df as [rows|]; eauto.
Qed.

Lemma has_window_full rows n : (n <= len rows)%Z -> has_window (Some rows) n = Some rows.
Proof. intros H. apply has_window_some. auto. Qed.

(** [gap_ratios] returns whenever the rate midpoint is not zero. *)
Lemma gap_ratios_returns cr rm cd dm :
  ~ rm == 0 -> exists c m a, gap_ratios cr rm cd dm = Value (c, m, a).
Proof.
  intros Hr. unfold gap_ratios.
  destruct (truthy cd) as [d|]; [|eauto].
  destruct (Qgtb cr 0) eqn:G; [|eauto].
  apply Qgtb_true in G. rewrite divide_nonzero by lra. simpl bind.
  destruct (truthy dm) as [x|] eqn:T; [|eauto].
  apply truthy_some in T as [_ Hx].
  rewrite divide_nonzero by exact Hr. simpl bind.
  rewrite divide_nonzero by (now apply ratio_nonzero). simpl bind. eauto.
Qed.

(** [dxy_window] returns on a positive index series, and on any series
    when the window is not there or the current index value fails
    [if current_dxy:]. *)
Lemma dxy_window_returns cd dh n :
  (0 < n)%Z ->
  (has_window dh n = None \/ truthy cd = None \/
   forall rows, dh = Some rows -> positive_series rows) ->
  exists dm dvm dmm, dxy_window cd dh n = Value (dm, dvm, dmm).
Proof.
  intros Hn P. unfold dxy_window.
  destruct (has_window dh n) as [rows|] eqn:W; [|eauto].
  destruct P as [P|P]; [discriminate|].
  apply has_window_some in W as [-> Hlen].
  destruct (col_min_least (tail n rows)) as (lo & E1 & L); [apply tail_nonempty; lia|].
  destruct (col_max_greatest (tail n rows)) as (hi & E2 & G); [apply tail_nonempty; lia|].
  rewrite E1, E2. simpl bind.
  destruct (truthy cd) as [d|]; [|eauto].
  destruct P as [P|P]; [discriminate|].
  assert (M : 0 < (lo + hi) / 2).
  { apply (midpoint_positive (tail n rows)); auto using tail_positive_series. }
  rewrite divide_nonzero by lra. simpl bind. eauto.
Qed.

(** On price series the function returns the dictionary. *)
Lemma calculate_total cr rows cd dh n :
  (0 < n <= len rows)%Z -> positive_series rows ->
  (has_window dh n = None \/ truthy cd = None \/
   forall drows, dh = Some drows -> positive_series drows) ->
  exists g, calculate_dollar_gap_ratio cr (Some rows) cd dh n = Value (GapDict g).
Proof.
  intros Hn P PD.
  destruct (window_of_positive_series n rows Hn P) as (lo & hi & E1 & E2 & _ & _ & M).
  destruct (dxy_window_returns cd dh n) as (dm & dvm & dmm & D); [lia | exact PD |].
  destruct (gap_ratios_returns cr ((lo + hi) / 2) cd dm) as (c & m & a & G); [lra|].
  eexists. eapply calculate_returns; eauto.
  - apply has_window_full. lia.
  - lra.
Qed.


(* ------------------------------------------------------------------ *)
(** ** C1 *)

(** C1, at a history shorter than the window.  With 2 observations and
    a window of 252 the function returns the tuple
    (None, None, None, None, None), which is not None: in
    [get_investment_recommendation] the test [gap_data is None] fails and the
    subscript [gap_data["rate_vs_mid"]] raises.  The fixed recommendation
    of insufficient data (empty list, 0 conditions) is what None gets. *)
Theorem C1_short_history_raises :
  calculate_dollar_gap_ratio 1300 (Some [1290; 1300]) (Some 100) (Some [99; 100]) 252
    = Value NoneTuple /\
  get_investment_recommendation NoneTuple = Raise TypeError /\
  get_investment_recommendation PyNone
    = Value {| decision := insufficient_data; explanation := not_enough;
               rec_recommendations := []; rec_conditions_met := 0 |}.
Proof. repeat split. Qed.

(* ------------------------------------------------------------------ *)
(** ** C3 *)




(* ------------------------------------------------------------------ *)
(** ** C5 *)



(* ------------------------------------------------------------------ *)
(** ** C6 *)



(* ------------------------------------------------------------------ *)
(** ** The counters of get_investment_recommendation *)

Lemma record_condition_counted k ok shown t :
  counted t ->
  counted (record_condition k ok shown t) /\
  numbers (record_condition k ok shown t) = numbers t ++ [k].
Proof.
  intros [T M]. unfold counted, numbers, record_condition. simpl.
  rewrite filter_app, !length_app, map_app. simpl.
  repeat split.
  - rewrite T. lia.
  - destruct ok; simpl; rewrite M; lia.
Qed.

Ltac recorded :=
  match goal with
  | H : counted ?t |- context [record_condition ?k ?ok ?s ?t] =>
      destruct (record_condition_counted k ok s t H) as [? ->]; split; auto
  end.

Lemma condition1_counted g t :
  counted t ->
  counted (condition1 g t) /\
  numbers (condition1 g t) = numbers t ++ when (inputs_present g 1) 1.
Proof.
  intros C. unfold condition1, inputs_present. simpl.
  destruct (rate_vs_mid g) as [v|]; simpl.
  - destruct (Qltb v 0); recorded.
  - now rewrite app_nil_r.
Qed.

Lemma condition2_counted g t :
  counted t ->
  counted (condition2 g t) /\
  numbers (condition2 g t) = numbers t ++ when (inputs_present g 2) 2.
Proof.
  intros C. unfold condition2, inputs_present. simpl.
  destruct (dxy_vs_mid g) as [v|]; simpl.
  - destruct (Qltb v 0); recorded.
  - now rewrite app_nil_r.
Qed.

Lemma condition3_counted g t :
  counted t ->
  counted (condition3 g t) /\
  numbers (condition3 g t) = numbers t ++ when (inputs_present g 3) 3.
Proof.
  intros C. unfold condition3, inputs_present. simpl.
  destruct (current_gap_ratio g) as [c|], (mid_gap_ratio g) as [m|]; simpl;
    try (now rewrite app_nil_r).
  recorded.
Qed.

Lemma condition4_counted g t t' :
  counted t -> condition4 g t = Value t' ->
  counted t' /\ numbers t' = numbers t ++ when (inputs_present g 4) 4.
Proof.
  intros C. unfold condition4, inputs_present. simpl.
  destruct (appropriate_rate g) as [a|], (current (rate_stats g)) as [c|]; simpl;
    try (intros [= <-]; now rewrite app_nil_r).
  intros H. bind_inv H. injection H as <-. recorded.
Qed.

(** The list has one entry for each condition whose inputs are present,
    in the order 1, 2, 3, 4, and the counters count its entries. *)
Lemma evaluate_conditions_counted g t :
  evaluate_conditions g = Value t ->
  counted t /\ numbers t = filter (inputs_present g) [1; 2; 3; 4]%Z.
Proof.
  unfold evaluate_conditions. intros H.
  set (t0 := {| recommendations := []; conditions_met := 0; total_conditions := 0 |}) in H.
  assert (C0 : counted t0) by (split; reflexivity).
  destruct (condition1_counted g t0 C0) as [C1 N1].
  destruct (condition2_counted g _ C1) as [C2 N2].
  destruct (condition3_counted g _ C2) as [C3 N3].
  destruct (condition4_counted g _ t C3 H) as [C4 N4].
  split; [exact C4|].
  rewrite N4, N3, N2, N1. unfold when. simpl.
  destruct (inputs_present g 1), (inputs_present g 2),
    (inputs_present g 3), (inputs_present g 4); reflexivity.
Qed.

Lemma filter_length_le {A : Type} (f : A -> bool) (l : list A) :
  (List.length (filter f l) <= List.length l)%nat.
Proof.
  induction l as [|x l IH]; simpl; [lia|]. destruct (f x); simpl; lia.
Qed.

Lemma evaluate_conditions_bounds g t :
  evaluate_conditions g = Value t ->
  (0 <= conditions_met t <= total_conditions t)%Z /\ (total_conditions t <= 4)%Z.
Proof.
  intros H. apply evaluate_conditions_counted in H as [[T M] N].
  pose proof (filter_length_le satisfied (recommendations t)) as L1.
  pose proof (filter_length_le (inputs_present g) [1; 2; 3; 4]%Z) as L2.
  rewrite <- N in L2. unfold numbers in L2. rewrite length_map in L2.
  simpl in L2. lia.
Qed.

(** What a returned recommendation is made of. *)
Lemma recommendation_value g r :
  get_investment_recommendation (GapDict g) = Value r ->
  exists t,
    evaluate_conditions g = Value t /\
    decision r = final_decision (conditions_met t) (total_conditions t) /\
    rec_recommendations r = recommendations t /\
    rec_conditions_met r = conditions_met t /\
    conditions_total r = total_conditions t.
Proof.
  simpl. intros H. bind_inv H. injection H as <-. exists a.
  unfold conditions_total. simpl.
  apply evaluate_conditions_counted in E as E'. destruct E' as [[T _] _].
  rewrite T. auto.
Qed.

(** In the exact embedding a dictionary that
    [calculate_dollar_gap_ratio] returned always gets a recommendation:
    its "appropriate_rate" is not zero there. *)
Lemma recommendation_total cr rh cd dh n g :
  calculate_dollar_gap_ratio cr rh cd dh n = Value (GapDict g) ->
  exists r, get_investment_recommendation (GapDict g) = Value r.
Proof.
  intros H.
  apply calculate_value in H
    as (rows & lo & hi & dm & dmm & _ & _ & _ & _ & _ & S & _ & G & _).
  apply gap_ratios_value in G.
  unfold get_investment_recommendation, evaluate_conditions, condition4.
  rewrite S. simpl current.
  destruct (truthy cd) as [d|] eqn:T.
  - apply truthy_some in T as [_ Hd].
    destruct (Qgtb cr 0).
    + destruct G as [_ G]. destruct (truthy dm) as [x|].
      * destruct G as (_ & Hm & _ & ->).
        rewrite divide_nonzero by (now apply ratio_nonzero). simpl. eauto.
      * destruct G as [_ ->]. simpl. eauto.
    + destruct G as (_ & _ & ->). simpl. eauto.
  - destruct G as (_ & _ & ->). simpl. eauto.
Qed.

(* ------------------------------------------------------------------ *)
(** ** C4 *)

(** C4: a returned recommendation has [conditions_met] and, as the
    length of its list, the number of conditions evaluated;
    0 <= conditions_met <= conditions_total <= 4; the conditions in the
    list are those whose inputs are present in the dictionary, in order;
    and [conditions_met] counts the satisfied ones. *)
Theorem C4_counters :
  forall v r,
    get_investment_recommendation v = Value r ->
    (0 <= rec_conditions_met r <= conditions_total r)%Z /\
    (conditions_total r <= 4)%Z /\
    rec_conditions_met r
      = Z.of_nat (List.length (filter satisfied (rec_recommendations r))) /\
    forall g, v = GapDict g ->
      map condition (rec_recommendations r) = filter (inputs_present g) [1; 2; 3; 4]%Z /\
      exists t,
        evaluate_conditions g = Value t /\
        conditions_met t = rec_conditions_met r /\
        total_conditions t = conditions_total r.
Proof.
  intros [| |g] r H.
  - injection H as <-. unfold conditions_total. simpl.
    split; [lia|]. split; [lia|]. split; [reflexivity|]. discriminate.
  - discriminate.
  - apply recommendation_value in H as (t & E & _ & R & M & T).
    pose proof (evaluate_conditions_bounds g t E) as B.
    pose proof (evaluate_conditions_counted g t E) as [[_ C] N].
    rewrite M, T, R. split; [lia|]. split; [lia|]. split; [exact C|].
    intros g' [= <-]. split; [exact N | eauto].
Qed.

Lemma C4_counters_witness :
  let g := {|
    rate_vs_mid := Some (-1); dxy_vs_mid := None;
    current_gap_ratio := Some 8; mid_gap_ratio := Some 8;
    appropriate_rate := None;
    rate_stats := {| current := Some 1300; mid := 1310; min := 1300; max := 1320 |};
    dxy_stats := None |} in
  exists r,
    get_investment_recommendation (GapDict g) = Value r /\
    rec_conditions_met r = 1%Z /\ conditions_total r = 2%Z /\
    (0 <= rec_conditions_met r <= conditions_total r)%Z /\
    (conditions_total r <= 4)%Z /\
    map condition (rec_recommendations r) = filter (inputs_present g) [1; 2; 3; 4]%Z.
Proof.
  intros g. eexists. split; [reflexivity|].
  split; [reflexivity|]. split; [reflexivity|].
  destruct (C4_counters (GapDict g) _ eq_refl) as (A & B & _ & D).
  split; [exact A|]. split; [exact B|].
  exact (proj1 (D g eq_refl)).
Defined.

(** C4 as stated fails: the tuple the function returns has no place
    for [total_conditions].  In two runs that evaluate 1 and 2 conditions
    the decision, the explanation and [conditions_met] are the same; the
    number of conditions evaluated shows only in how many lines the list
    has. *)
Lemma C4_counterexample :
  exists r1 r2 t1 t2,
    get_investment_recommendation (GapDict {|
      rate_vs_mid := Some 1; dxy_vs_mid := None;
      current_gap_ratio := None; mid_gap_ratio := None; appropriate_rate := None;
      rate_stats := {| current := Some 4; mid := 3; min := 2; max := 4 |};
      dxy_stats := None |}) = Value r1 /\
    get_investment_recommendation (GapDict {|
      rate_vs_mid := Some 1; dxy_vs_mid := Some 1;
      current_gap_ratio := None; mid_gap_ratio := None; appropriate_rate := None;
      rate_stats := {| current := Some 4; mid := 3; min := 2; max := 4 |};
      dxy_stats := None |}) = Value r2 /\
    evaluate_conditions {|
      rate_vs_mid := Some 1; dxy_vs_mid := None;
      current_gap_ratio := None; mid_gap_ratio := None; appropriate_rate := None;
      rate_stats := {| current := Some 4; mid := 3; min := 2; max := 4 |};
      dxy_stats := None |} = Value t1 /\
    evaluate_conditions {|
      rate_vs_mid := Some 1; dxy_vs_mid := Some 1;
      current_gap_ratio := None; mid_gap_ratio := None; appropriate_rate := None;
      rate_stats := {| current := Some 4; mid := 3; min := 2; max := 4 |};
      dxy_stats := None |} = Value t2 /\
    total_conditions t1 = 1%Z /\ total_conditions t2 = 2%Z /\
    decision r1 = decision r2 /\
    explanation r1 = explanation r2 /\
    rec_conditions_met r1 = rec_conditions_met r2.
Proof.
  do 4 eexists.
  split; [reflexivity|]. split; [reflexivity|].
  split; [reflexivity|]. split; [reflexivity|].
  repeat split.
Qed.

(* ------------------------------------------------------------------ *)
(** ** C2 *)

Lemma at_least_ratio met total f :
  (0 < total)%Z -> at_least met total f = Qle_bool f (inject_Z met / inject_Z total).
Proof.
  intros H. unfold at_least.
  assert (P : 0 < inject_Z total) by (unfold Qlt; simpl; lia).
  apply eq_iff_eq_true. rewrite !Qle_bool_iff. split; intros L.
  - apply Qle_shift_div_l; [exact P|]. now rewrite Qmult_comm.
  - rewrite Qmult_comm. apply (Qmult_le_r _ _ (/ inject_Z total)).
    + now apply Qinv_lt_0_compat.
    + assert (E : f * inject_Z total * / inject_Z total == f) by (field; lra).
      rewrite E. exact L.
Qed.

Lemma final_decision_rule met total :
  (0 <= total)%Z -> final_decision met total = decision_rule met total.
Proof.
  intros H. unfold final_decision, decision_rule.
  destruct (Z.eqb_spec total 0); [reflexivity|].
  rewrite !at_least_ratio by lia. reflexivity.
Qed.

(** The six labels are six different texts. *)
Lemma labels_distinct :
  NoDup [insufficient_data; strong_buy; buy_consider; hold; caution; avoid].
Proof.
  repeat constructor; simpl; intuition discriminate.
Qed.

(** C2: the decision of a returned recommendation is the rule applied
    to (conditions_met, conditions_total): no conditions gives the label of
    insufficient data, all conditions met the label to buy, then the
    thresholds 0.75, 0.5 and 0.25 on the ratio in this order, else the label
    to avoid; two recommendations with the same pair have the same
    decision; and the pair (3, 4) gives the label to consider buying. *)
Theorem C2_decision_from_counters :
  (forall v r,
     get_investment_recommendation v = Value r ->
     decision r = decision_rule (rec_conditions_met r) (conditions_total r)) /\
  (forall v1 v2 r1 r2,
     get_investment_recommendation v1 = Value r1 ->
     get_investment_recommendation v2 = Value r2 ->
     rec_conditions_met r1 = rec_conditions_met r2 ->
     conditions_total r1 = conditions_total r2 ->
     decision r1 = decision r2) /\
  decision_rule 3 4 = buy_consider.
Proof.
  assert (A : forall v r,
     get_investment_recommendation v = Value r ->
     decision r = decision_rule (rec_conditions_met r) (conditions_total r)).
  { intros [| |g] r H.
    - injection H as <-. reflexivity.
    - discriminate.
    - apply recommendation_value in H as (t & E & D & _ & M & T).
      rewrite D, M, T. apply final_decision_rule.
      apply evaluate_conditions_bounds in E. lia. }
  split; [exact A|]. split; [|reflexivity].
  intros v1 v2 r1 r2 H1 H2 M T.
  rewrite (A v1 r1 H1), (A v2 r2 H2), M, T. reflexivity.
Qed.

Lemma C2_decision_from_counters_witness :
  let g := {|
    rate_vs_mid := Some (-1); dxy_vs_mid := Some 1;
    current_gap_ratio := Some 2; mid_gap_ratio := Some 1;
    appropriate_rate := Some 5;
    rate_stats := {| current := Some 4; mid := 5; min := 4; max := 6 |};
    dxy_stats := None |} in
  exists r,
    get_investment_recommendation (GapDict g) = Value r /\
    rec_conditions_met r = 3%Z /\ conditions_total r = 4%Z /\
    decision r = decision_rule 3 4 /\ decision r = buy_consider.
Proof.
  intros g. eexists. split; [reflexivity|].
  split; [reflexivity|]. split; [reflexivity|].
  split; [|reflexivity].
  exact (proj1 C2_decision_from_counters (GapDict g) _ eq_refl).
Defined.

(* ------------------------------------------------------------------ *)
(** ** C7 *)

(** A dictionary in which only "rate_vs_mid" is there: condition 1 is
    the one condition evaluated. *)
Lemma recommendation_rate_only g :
  rate_vs_mid g <> None -> dxy_vs_mid g = None ->
  current_gap_ratio g = None -> appropriate_rate g = None ->
  exists r,
    get_investment_recommendation (GapDict g) = Value r /\
    map condition (rec_recommendations r) = [1%Z] /\
    conditions_total r = 1%Z.
Proof.
  intros R D C A.
  unfold get_investment_recommendation, evaluate_conditions,
    condition1, condition2, condition3, condition4.
  rewrite D, C, A. destruct (rate_vs_mid g) as [v|]; [|contradiction].
  destruct (Qltb v 0); simpl; eexists; repeat split.
Qed.

(** C7 as stated fails: with an index series shorter than the window
    and a current index value, "current_gap_ratio" is in the dictionary;
    with an index series as long as the window and no current index
    value, "dxy_stats" is in the dictionary. *)
Lemma C7_counterexample :
  (exists g,
     calculate_dollar_gap_ratio 1310 (Some [1300; 1310]) (Some 100) (Some [100]) 2
       = Value (GapDict g) /\
     (observations (Some [100%Q]) < 2)%Z /\
     current_gap_ratio g <> None) /\
  (exists g,
     calculate_dollar_gap_ratio 1310 (Some [1300; 1310]) None (Some [99; 100]) 2
       = Value (GapDict g) /\
     dxy_stats g <> None).
Proof.
  split; eexists; (split; [reflexivity|]); simpl.
  - split; [reflexivity | discriminate].
  - discriminate.
Qed.

(** C7, amended: on a rate price series of at least [period_days]
    observations, with an index series shorter than the window or no
    current index value, the function returns the dictionary, and
    "dxy_vs_mid", "mid_gap_ratio" and "appropriate_rate" are None in it.
    With the short index series "dxy_stats" is None, and
    "current_gap_ratio" is there exactly when the current index value is
    there, not zero, and the current rate is positive.  With no current
    index value "current_gap_ratio" is None, "dxy_stats" is there exactly
    when the index series has the window, and the recommendation
    evaluates condition 1 alone: conditions_total is at most 1. *)
Theorem C7_missing_index_data :
  forall cr rows cd dh n,
    (0 < n <= len rows)%Z -> positive_series rows ->
    (observations dh < n)%Z \/ cd = None ->
    exists g,
      calculate_dollar_gap_ratio cr (Some rows) cd dh n = Value (GapDict g) /\
      dxy_vs_mid g = None /\ mid_gap_ratio g = None /\ appropriate_rate g = None /\
      ((observations dh < n)%Z ->
         dxy_stats g = None /\
         (current_gap_ratio g <> None <-> exists d, cd = Some d /\ ~ d == 0 /\ 0 < cr)) /\
      (cd = None ->
         current_gap_ratio g = None /\
         (dxy_stats g <> None <-> (n <= observations dh)%Z) /\
         exists r,
           get_investment_recommendation (GapDict g) = Value r /\
           map condition (rec_recommendations r) = [1%Z] /\
           (conditions_total r <= 1)%Z).
Proof.
  intros cr rows cd dh n Hn P Hyp.
  assert (Pre : has_window dh n = None \/ truthy cd = None \/
                forall drows, dh = Some drows -> positive_series drows).
  { destruct Hyp as [S| ->]; [left; apply has_window_short; lia | right; left; reflexivity]. }
  destruct (calculate_total cr rows cd dh n Hn P Pre) as (g & H).
  exists g. split; [exact H|].
  apply calculate_value in H
    as (rows' & lo & hi & dm & dmm & _ & _ & _ & _ & V & _ & D & G & S).
  apply dxy_window_value in D. apply gap_ratios_value in G.
  destruct (has_window dh n) as [drows|] eqn:W.
  - (* the index window is there: the current index value is not *)
    apply has_window_some in W as [-> Hd].
    destruct Hyp as [Sh| ->]; [simpl in Sh; lia|].
    simpl in D, G.
    destruct D as (dlo & dhi & _ & _ & -> & -> & D).
    destruct G as (C & M & A).
    split; [exact D|]. split; [exact M|]. split; [exact A|].
    split; [simpl; lia|]. intros _.
    split; [exact C|]. split.
    + rewrite S. simpl. split; [lia | discriminate].
    + destruct (recommendation_rate_only g) as (r & E & N & T); auto.
      * rewrite V. discriminate.
      * exists r. split; [exact E|]. split; [exact N | lia].
  - (* no index window *)
    destruct D as (-> & D & ->).
    assert (Sh : (observations dh < n)%Z).
    { apply has_window_none in W as [->|(drows & -> & L)]; simpl; lia. }
    split; [exact D|].
    assert (MA : mid_gap_ratio g = None /\ appropriate_rate g = None).
    { destruct (truthy cd); [destruct (Qgtb cr 0)|]; simpl in G; intuition. }
    destruct MA as [M A]. split; [exact M|]. split; [exact A|]. split.
    + intros _. split; [exact S|].
      destruct (truthy cd) as [d|] eqn:T.
      * apply truthy_some in T as [-> Hz].
        destruct (Qgtb cr 0) eqn:Q.
        -- destruct G as [-> _]. apply Qgtb_true in Q.
           split; [eauto | discriminate].
        -- destruct G as [-> _]. apply Qgtb_false in Q.
           split; [contradiction | intros (d' & _ & _ & L); lra].
      * destruct G as [-> _]. split; [contradiction|].
        intros (d & -> & Hz & _).
        apply truthy_none in T as [T|(v & [= <-] & Z)]; [discriminate | contradiction].
    + intros ->. simpl in G. destruct G as (C & _ & _).
      split; [exact C|]. split.
      * rewrite S. split; [contradiction | lia].
      * destruct (recommendation_rate_only g) as (r & E & N & T); auto.
        -- rewrite V. discriminate.
        -- exists r. split; [exact E|]. split; [exact N | lia].
Qed.

Lemma C7_missing_index_data_witness :
  (exists g,
     calculate_dollar_gap_ratio 1310 (Some [1300; 1310]) (Some 100) (Some [100]) 2
       = Value (GapDict g) /\
     dxy_vs_mid g = None /\ mid_gap_ratio g = None /\ appropriate_rate g = None /\
     dxy_stats g = None) /\
  (exists g r,
     calculate_dollar_gap_ratio 1310 (Some [1300; 1310]) None (Some [99; 100]) 2
       = Value (GapDict g) /\
     current_gap_ratio g = None /\
     get_investment_recommendation (GapDict g) = Value r /\
     (conditions_total r <= 1)%Z).
Proof.
  assert (L : (0 < 2 <= len [1300%Q; 1310%Q])%Z) by (unfold len; simpl; lia).
  assert (P : positive_series [1300; 1310]) by (repeat constructor).
  split.
  - destruct (C7_missing_index_data 1310 [1300; 1310] (Some 100) (Some [100]) 2 L P)
      as (g & E & A & B & C & D & _).
    + left. unfold observations, len. simpl. lia.
    + exists g. repeat (split; [assumption|]). apply D.
      unfold observations, len. simpl. lia.
  - destruct (C7_missing_index_data 1310 [1300; 1310] None (Some [99; 100]) 2 L P)
      as (g & E & _ & _ & _ & _ & D).
    + right. reflexivity.
    + destruct (D eq_refl) as (C & _ & r & R & _ & T).
      exists g, r. auto.
Defined.

(* ------------------------------------------------------------------ *)
(** ** C10 *)

(** C10: a current index value of 0 is taken as missing.  With a
    positive current rate and both series as long as the window, the
    function returns the dictionary; "dxy_vs_mid", "current_gap_ratio",
    "mid_gap_ratio" and "appropriate_rate" are None in it, while
    "dxy_stats" is there and holds the 0 as its current value. *)
Theorem C10_zero_index_is_missing :
  forall cr rows d drows n,
    d == 0 -> 0 < cr ->
    (0 < n <= len rows)%Z -> (n <= len drows)%Z ->
    positive_series rows ->
    exists g s,
      calculate_dollar_gap_ratio cr (Some rows) (Some d) (Some drows) n
        = Value (GapDict g) /\
      dxy_vs_mid g = None /\ current_gap_ratio g = None /\
      mid_gap_ratio g = None /\ appropriate_rate g = None /\
      dxy_stats g = Some s /\ current s = Some d.
Proof.
  intros cr rows d drows n Hd Hc Hn Hdn P.
  assert (T : truthy (Some d) = None).
  { simpl. apply Qeq_bool_iff in Hd. now rewrite Hd. }
  destruct (calculate_total cr rows (Some d) (Some drows) n Hn P) as (g & H);
    [auto|].
  exists g.
  pose proof H as H'.
  apply calculate_value in H'
    as (rows' & lo & hi & dm & dmm & _ & _ & _ & _ & _ & _ & D & G & S).
  apply dxy_window_value in D. apply gap_ratios_value in G.
  rewrite has_window_full in D by exact Hdn. rewrite T in D, G.
  destruct D as (dlo & dhi & _ & _ & -> & -> & D).
  destruct G as (C & M & A).
  eexists. split; [exact H|]. split; [exact D|]. split; [exact C|].
  split; [exact M|]. split; [exact A|]. split; [exact S | reflexivity].
Qed.

Lemma C10_zero_index_is_missing_witness :
  exists g s,
    calculate_dollar_gap_ratio 1310 (Some [1300; 1310]) (Some 0) (Some [99; 100]) 2
      = Value (GapDict g) /\
    dxy_vs_mid g = None /\ current_gap_ratio g = None /\
    mid_gap_ratio g = None /\ appropriate_rate g = None /\
    dxy_stats g = Some s /\ current s = Some 0.
Proof.
  apply (C10_zero_index_is_missing 1310 [1300; 1310] 0 [99; 100] 2).
  - reflexivity.
  - reflexivity.
  - unfold len. simpl. lia.
  - unfold len. simpl. lia.
  - repeat constructor.
Defined.

(* ------------------------------------------------------------------ *)
(** ** C8 *)

Lemma iloc_last_app init x : iloc_last (init ++ [x]) = Value x.
Proof.
  induction init as [|a init IH]; [reflexivity|].
  simpl. destruct (init ++ [x]) eqn:E; [|exact IH].
  destruct init; discriminate.
Qed.

Lemma tail_app_last n init x :
  (0 < n)%Z -> exists init', tail n (init ++ [x]) = init' ++ [x].
Proof.
  intros H. rewrite tail_positive by exact H.
  rewrite length_app. simpl.
  set (k := (List.length init + 1 - Z.to_nat n)%nat).
  assert (K : (k <= List.length init)%nat) by lia.
  rewrite skipn_app.
  replace (k - List.length init)%nat with 0%nat by lia.
  simpl. eauto.
Qed.

Lemma last_row rows : (0 < len rows)%Z -> exists init x, rows = init ++ [x].
Proof.
  intros H. destruct (exists_last (l := rows)) as (init & x & E).
  - intros ->. unfold len in H. simpl in H. lia.
  - eauto.
Qed.

Lemma col_mean_value col :
  (0 < len col)%Z -> col_mean col = Value (col_sum col / inject_Z (len col)).
Proof.
  destruct col; [unfold len; simpl; lia | reflexivity].
Qed.

Lemma len_tail n df : (0 < n <= len df)%Z -> len (tail n df) = n.
Proof. intros H. unfold len. rewrite tail_length by exact H. lia. Qed.

Lemma label_up_down (b : bool) :
  ((if b then up else down) = up <-> b = true) /\
  ((if b then up else down) = down <-> b = false).
Proof. destruct b; repeat split; intros; try reflexivity; discriminate. Qed.

(** A latest value equal to both means: both labels are "down". *)
Example trend_tie :
  analyze_dxy_trend (Some (repeat 100 20)) = Value (Some down, Some down).
Proof. reflexivity. Qed.

(** A latest value above the 5-day mean and below the 20-day mean. *)
Example trend_mixed :
  analyze_dxy_trend (Some (repeat 100 15 ++ [90; 91; 92; 93; 94]))
    = Value (Some down, Some up).
Proof. reflexivity. Qed.

(* ------------------------------------------------------------------ *)
(** ** C9 *)





(** The amounts of the example: a fee of 2000 and 998000 net. *)
Example sizing_example :
  exists d,
    calculate_investment_details 1000000 (Some 1300) = Value (Some d) /\
    fee d == 2000 /\ net_investment d == 998000 /\ net_dollar d == 998000 / 1300.
Proof. eexists. split; [reflexivity|]. simpl. repeat split; reflexivity. Qed.

(** A current rate on the midpoint: "rate_vs_mid" is 0 and condition 1
    is evaluated and not satisfied. *)
Example midpoint_example :
  exists g v r,
    calculate_dollar_gap_ratio 1300 (Some [1250; 1350]) None None 2 = Value (GapDict g) /\
    mid (rate_stats g) == 1300 /\
    rate_vs_mid g = Some v /\ v == 0 /\
    get_investment_recommendation (GapDict g) = Value r /\
    map satisfied (rec_recommendations r) = [false] /\
    rec_conditions_met r = 0%Z.
Proof.
  do 3 eexists. split; [reflexivity|]. simpl.
  split; [reflexivity|]. split; [reflexivity|]. split; [reflexivity|].
  split; [reflexivity|]. split; reflexivity.
Qed.

(* ================================================================== *)
(** * Further properties of the calculator and of the recommendation *)





Lemma final_decision_sufficient met total :
  total <> 0%Z -> final_decision met total <> insufficient_data.
Proof.
  intros H. unfold final_decision.
  destruct (Z.eqb_spec total 0); [contradiction|].
  destruct (met =? total)%Z; [discriminate|].
  repeat match goal with |- context [at_least ?a ?b ?c] => destruct (at_least a b c) end;
    discriminate.
Qed.




(* ------------------------------------------------------------------ *)
(** ** The decision and the counters *)

Lemma at_least_mono met met' total f :
  (met <= met')%Z -> at_least met total f = true -> at_least met' total f = true.
Proof.
  unfold at_least. rewrite !Qle_bool_iff. intros H L.
  eapply Qle_trans; [exact L|]. now rewrite <- Zle_Qle.
Qed.

(** X6: With the number of evaluated conditions fixed, more satisfied
    conditions never give a weaker decision. *)
Theorem decision_monotone :
  forall met met' total,
    (met <= met' <= total)%Z ->
    (strength (final_decision met total) <= strength (final_decision met' total))%Z.
Proof.
  intros met met' total [H1 H2]. unfold final_decision.
  destruct (Z.eqb_spec total 0); [reflexivity|].
  destruct (Z.eqb_spec met' total).
  { repeat match goal with |- context [if ?b then _ else _] => destruct b end;
      apply Z.leb_le; reflexivity. }
  destruct (Z.eqb_spec met total); [lia|].
  pose proof (at_least_mono met met' total 0.75 H1) as M1.
  pose proof (at_least_mono met met' total 0.5 H1) as M2.
  pose proof (at_least_mono met met' total 0.25 H1) as M3.
  destruct (at_least met total 0.75), (at_least met' total 0.75);
    try (specialize (M1 eq_refl); discriminate);
    try (apply Z.leb_le; reflexivity);
    destruct (at_least met total 0.5), (at_least met' total 0.5);
    try (specialize (M2 eq_refl); discriminate);
    try (apply Z.leb_le; reflexivity);
    destruct (at_least met total 0.25), (at_least met' total 0.25);
    try (specialize (M3 eq_refl); discriminate);
    apply Z.leb_le; reflexivity.
Qed.

Lemma decision_monotone_witness :
  (strength (final_decision 1 4) <= strength (final_decision 3 4))%Z /\
  strength (final_decision 1 4) = 1%Z /\ strength (final_decision 3 4) = 3%Z.
Proof.
  split; [apply (decision_monotone 1 3 4); lia|]. split; reflexivity.
Defined.

Ltac small_counters met total :=
  let T := fresh in let M := fresh in
  assert (T : (total = 0 \/ total = 1 \/ total = 2 \/ total = 3 \/ total = 4)%Z) by lia;
  assert (M : (met = 0 \/ met = 1 \/ met = 2 \/ met = 3 \/ met = 4)%Z) by lia;
  destruct T as [-> | [-> | [-> | [-> | ->]]]];
  destruct M as [-> | [-> | [-> | [-> | ->]]]];
  try lia.

(** What each decision says about the counters, for up to four
    conditions. *)
Lemma final_decision_table met total :
  (0 <= met <= total)%Z -> (total <= 4)%Z ->
  (final_decision met total = insufficient_data <-> total = 0%Z) /\
  (final_decision met total = strong_buy <-> met = total /\ (0 < total)%Z) /\
  (final_decision met total = buy_consider <-> met = 3%Z /\ total = 4%Z) /\
  (final_decision met total = hold <->
     (2 * met = total /\ 0 < total)%Z \/ (met = 2 /\ total = 3)%Z) /\
  (final_decision met total = caution <-> met = 1%Z /\ (3 <= total)%Z) /\
  (final_decision met total = avoid <-> met = 0%Z /\ (0 < total)%Z).
Proof.
  intros B1 B2. small_counters met total;
    match goal with
    | |- context [final_decision ?m ?t] =>
        let d := fresh "d" in
        set (d := final_decision m t); vm_compute in d; subst d
    end;
    repeat split; intros; first [reflexivity | discriminate | lia].
Qed.

(** The display of the decision, for up to four conditions. *)
Lemma decision_box_table met total :
  (0 <= met <= total)%Z -> (total <= 4)%Z ->
  (decision_box (final_decision met total) = StSuccess <->
     met = total /\ (0 < total)%Z) /\
  (decision_box (final_decision met total) = StInfo <-> met = 3%Z /\ total = 4%Z) /\
  (decision_box (final_decision met total) = StWarning <->
     met = 1%Z /\ (3 <= total)%Z) /\
  (decision_box (final_decision met total) = StError <->
     met = 0%Z /\ (0 < total)%Z) /\
  (decision_box (final_decision met total) = StMarkdown <->
     total = 0%Z \/ (2 * met = total)%Z \/ (met = 2 /\ total = 3)%Z).
Proof.
  intros B1 B2. small_counters met total;
    match goal with
    | |- context [decision_box ?x] =>
        let d := fresh "d" in
        set (d := decision_box x); vm_compute in d; subst d
    end;
    repeat split; intros; first [reflexivity | discriminate | lia].
Qed.

Lemma recommendation_counters v r :
  get_investment_recommendation v = Value r ->
  decision r = final_decision (rec_conditions_met r) (conditions_total r) /\
  (0 <= rec_conditions_met r <= conditions_total r)%Z /\
  (conditions_total r <= 4)%Z.
Proof.
  destruct v as [| |g]; intros H.
  - injection H as <-. unfold conditions_total. simpl.
    split; [reflexivity | lia].
  - discriminate.
  - apply recommendation_value in H as (t & E & D & _ & M & T).
    apply evaluate_conditions_bounds in E. rewrite D, M, T. split; [reflexivity | lia].
Qed.

(** X7: What the decision of a returned recommendation says about its
    counters: all conditions satisfied for the label to buy, 3 of 4 to
    consider buying, half of them (or 2 of 3) to hold, 1 of 3 or 4 for
    caution, none for the label to avoid, and no condition evaluated for
    the label of insufficient data. *)
Theorem decision_reads_the_counters :
  forall v r,
    get_investment_recommendation v = Value r ->
    let met := rec_conditions_met r in
    let total := conditions_total r in
    (decision r = insufficient_data <-> total = 0%Z) /\
    (decision r = strong_buy <-> met = total /\ (0 < total)%Z) /\
    (decision r = buy_consider <-> met = 3%Z /\ total = 4%Z) /\
    (decision r = hold <->
       (2 * met = total /\ 0 < total)%Z \/ (met = 2 /\ total = 3)%Z) /\
    (decision r = caution <-> met = 1%Z /\ (3 <= total)%Z) /\
    (decision r = avoid <-> met = 0%Z /\ (0 < total)%Z).
Proof.
  intros v r H. apply recommendation_counters in H as (-> & B1 & B2).
  now apply final_decision_table.
Qed.

Lemma decision_reads_the_counters_witness :
  let v := GapDict {|
    rate_vs_mid := Some 1; dxy_vs_mid := None;
    current_gap_ratio := None; mid_gap_ratio := None; appropriate_rate := None;
    rate_stats := {| current := Some 4; mid := 3; min := 2; max := 4 |};
    dxy_stats := None |} in
  exists r,
    get_investment_recommendation v = Value r /\
    decision r = avoid /\
    (decision r = avoid <-> rec_conditions_met r = 0%Z /\ (0 < conditions_total r)%Z).
Proof.
  intros v. eexists. split; [reflexivity|]. split; [reflexivity|].
  exact (proj2 (proj2 (proj2 (proj2 (proj2
    (decision_reads_the_counters v _ eq_refl)))))).
Defined.

(** X8: How a returned recommendation is drawn: the green box exactly when
    every evaluated condition is satisfied, the red box exactly when none
    is, the blue box for 3 of 4, the yellow box for 1 of 3 or 4, and plain
    text when no condition was evaluated or for the label to hold.  The
    keys of the colour dictionary are the texts the recommendation
    returns. *)
Theorem decision_box_reads_the_counters :
  forall v r,
    get_investment_recommendation v = Value r ->
    let met := rec_conditions_met r in
    let total := conditions_total r in
    (decision_box (decision r) = StSuccess <-> met = total /\ (0 < total)%Z) /\
    (decision_box (decision r) = StInfo <-> met = 3%Z /\ total = 4%Z) /\
    (decision_box (decision r) = StWarning <-> met = 1%Z /\ (3 <= total)%Z) /\
    (decision_box (decision r) = StError <-> met = 0%Z /\ (0 < total)%Z) /\
    (decision_box (decision r) = StMarkdown <->
       total = 0%Z \/ (2 * met = total)%Z \/ (met = 2 /\ total = 3)%Z).
Proof.
  intros v r H. apply recommendation_counters in H as (-> & B1 & B2).
  now apply decision_box_table.
Qed.

Lemma decision_box_reads_the_counters_witness :
  let v := GapDict {|
    rate_vs_mid := Some (-1); dxy_vs_mid := Some (-1);
    current_gap_ratio := None; mid_gap_ratio := None; appropriate_rate := None;
    rate_stats := {| current := Some 2; mid := 3; min := 2; max := 4 |};
    dxy_stats := None |} in
  exists r,
    get_investment_recommendation v = Value r /\
    decision_box (decision r) = StSuccess /\
    (decision_box (decision r) = StSuccess <->
       rec_conditions_met r = conditions_total r /\ (0 < conditions_total r)%Z).
Proof.
  intros v. eexists. split; [reflexivity|]. split; [reflexivity|].
  exact (proj1 (decision_box_reads_the_counters v _ eq_refl)).
Defined.

(* ------------------------------------------------------------------ *)
(** ** The trend labels *)

(** From 20 observations on: the two labels, by the two comparisons. *)
Lemma analyze_dxy_trend_value rows :
  (20 <= len rows)%Z ->
  exists init latest,
    rows = init ++ [latest] /\
    analyze_dxy_trend (Some rows)
      = Value (Some (if Qgtb latest (col_sum (tail 20 rows) / 20) then up else down),
               Some (if Qgtb latest (col_sum (tail 5 rows) / 5) then up else down)).
Proof.
  intros H. destruct (last_row rows) as (init & latest & E); [lia|].
  exists init, latest. split; [exact E|].
  unfold analyze_dxy_trend.
  destruct (Z.ltb_spec (len rows) 20); [lia|].
  rewrite (tail_tail 20 5) by lia.
  assert (I : iloc_last (tail 20 rows) = Value latest).
  { destruct (tail_app_last 20 init latest) as (init' & E'); [lia|].
    rewrite E, E'. apply iloc_last_app. }
  rewrite I. simpl bind.
  rewrite !col_mean_value by (rewrite len_tail; lia).
  rewrite !len_tail by lia. reflexivity.
Qed.

(** X9: The function returns on every input: the subscript [.iloc[-1]] and
    the two means always have rows to work on.  It returns no label for
    fewer than 20 observations and both labels otherwise, each of them
    one of the two texts. *)
Theorem trend_always_returns :
  forall dh,
    exists medium short,
      analyze_dxy_trend dh = Value (medium, short) /\
      ((observations dh < 20)%Z -> medium = None /\ short = None) /\
      ((20 <= observations dh)%Z ->
         (medium = Some up \/ medium = Some down) /\
         (short = Some up \/ short = Some down)).
Proof.
  intros [rows|].
  - destruct (Z.ltb_spec (len rows) 20) as [L|L].
    + exists None, None. simpl.
      destruct (Z.ltb_spec (len rows) 20); [|lia].
      split; [reflexivity|]. split; [auto | lia].
    + destruct (analyze_dxy_trend_value rows L) as (init & latest & _ & E).
      do 2 eexists. split; [exact E|]. simpl. split; [lia|]. intros _.
      split.
      * destruct (Qgtb latest (col_sum (tail 20 rows) / 20)); auto.
      * destruct (Qgtb latest (col_sum (tail 5 rows) / 5)); auto.
  - exists None, None. simpl. split; [reflexivity|]. split; [auto | lia].
Qed.

Lemma trend_always_returns_witness :
  exists medium short,
    analyze_dxy_trend (Some (repeat 100 15 ++ [90; 91; 92; 93; 94]))
      = Value (medium, short) /\
    (medium = Some up \/ medium = Some down) /\
    (short = Some up \/ short = Some down).
Proof.
  destruct (trend_always_returns (Some (repeat 100 15 ++ [90; 91; 92; 93; 94])))
    as (medium & short & E & _ & B).
  exists medium, short. split; [exact E|]. apply B.
  unfold observations, len. simpl. lia.
Defined.

(* ------------------------------------------------------------------ *)
(** ** The session *)

Lemma sidebar_valid amount period c s :
  In period period_options -> valid_session s ->
  valid_session (sidebar amount period c s).
Proof.
  intros Hp V. destruct c; simpl; [exact V | | intros [=]].
  destruct (Qle_bool amount 0) eqn:A; [exact V|].
  intros _. exists amount, period. simpl.
  split; [reflexivity|]. split; [|auto].
  apply Qnot_le_lt. intros L. apply Qle_bool_iff in L. congruence.
Qed.

Lemma fold_sidebar_valid runs s :
  Forall (fun run : Q * Z * click => In (snd (fst run)) period_options) runs ->
  valid_session s ->
  valid_session
    (fold_left (fun s '(amount, period, c) => sidebar amount period c s) runs s).
Proof.
  intros F. revert s. induction F as [|[[a p] c] runs Hp _ IH]; intros s V.
  - exact V.
  - simpl. apply IH. now apply sidebar_valid.
Qed.

(** X13: Whatever buttons were pressed with whatever amounts, an analysis
    only ever runs with a positive amount and with a window length of
    126, 252 or 504 days. *)
Theorem analysis_runs_on_valid_inputs :
  forall runs amount period,
    Forall (fun run : Q * Z * click => In (snd (fst run)) period_options) runs ->
    main_inputs (session_after runs) = Some (amount, period) ->
    0 < amount /\ In period period_options /\ (0 < period)%Z.
Proof.
  intros runs amount period F H.
  assert (V : valid_session (session_after runs)).
  { apply fold_sidebar_valid; [exact F | intros [=]]. }
  unfold main_inputs in H.
  destruct (ss_analyze (session_after runs)) as [[|]|] eqn:A; try discriminate.
  destruct (V A) as (a & p & Ea & Pa & Ep & Ip).
  rewrite Ea, Ep in H. injection H as <- <-.
  split; [exact Pa|]. split; [exact Ip|].
  unfold period_options in Ip. simpl in Ip. lia.
Qed.

Lemma analysis_runs_on_valid_inputs_witness :
  main_inputs (session_after
    [(1000000, 252%Z, ClickAnalyze); (0, 504%Z, ClickAnalyze); (5, 126%Z, NoClick)])
    = Some (1000000, 252%Z) /\
  0 < 1000000 /\ In 252%Z period_options /\ (0 < 252)%Z.
Proof.
  split; [reflexivity|].
  apply (analysis_runs_on_valid_inputs
           [(1000000, 252%Z, ClickAnalyze); (0, 504%Z, ClickAnalyze);
            (5, 126%Z, NoClick)]).
  - repeat (apply Forall_cons; [simpl; auto|]). apply Forall_nil.
  - reflexivity.
Defined.

Lemma session_after_app runs amount period c :
  session_after (runs ++ [(amount, period, c)])
  = sidebar amount period c (session_after runs).
Proof. unfold session_after. rewrite fold_left_app. reflexivity. Qed.

(** X14: After the reset button no analysis is shown, while the stored amount
    and window length stay; an analyze click with an amount that is not
    positive changes nothing, so an analysis shown before stays on the
    page with its old inputs; an analyze click with a positive amount
    runs the analysis with the values of this run. *)
Theorem buttons_and_session :
  forall runs amount period,
    (main_inputs (session_after (runs ++ [(amount, period, ClickReset)])) = None /\
     ss_investment_amount (session_after (runs ++ [(amount, period, ClickReset)]))
       = ss_investment_amount (session_after runs) /\
     ss_period_days (session_after (runs ++ [(amount, period, ClickReset)]))
       = ss_period_days (session_after runs)) /\
    (amount <= 0 ->
     session_after (runs ++ [(amount, period, ClickAnalyze)]) = session_after runs) /\
    (0 < amount ->
     main_inputs (session_after (runs ++ [(amount, period, ClickAnalyze)]))
       = Some (amount, period)).
Proof.
  intros runs amount period. rewrite !session_after_app. simpl.
  split; [auto|]. split; intros H.
  - apply Qle_bool_iff in H. now rewrite H.
  - destruct (Qle_bool amount 0) eqn:A; [|reflexivity].
    apply Qle_bool_iff in A. lra.
Qed.

Lemma buttons_and_session_witness :
  session_after [(1000000, 252%Z, ClickAnalyze); (0, 504%Z, ClickAnalyze)]
    = session_after [(1000000, 252%Z, ClickAnalyze)] /\
  main_inputs (session_after [(1000000, 252%Z, ClickAnalyze); (0, 504%Z, ClickAnalyze)])
    = Some (1000000, 252%Z) /\
  main_inputs (session_after [(0, 504%Z, ClickAnalyze); (7, 126%Z, ClickAnalyze)])
    = Some (7, 126%Z).
Proof.
  split; [|split].
  - apply (proj1 (proj2 (buttons_and_session
                           [(1000000, 252%Z, ClickAnalyze)] 0 504))).
    unfold Qle. simpl. lia.
  - reflexivity.
  - apply (proj2 (proj2 (buttons_and_session [(0, 504%Z, ClickAnalyze)] 7 126))).
    reflexivity.
Defined.

(* ------------------------------------------------------------------ *)
(** ** The page *)

Lemma fetch_latest init latest :
  get_exchange_rate (Frame (init ++ [latest]))
    = Value (Some latest, Some (init ++ [latest])) /\
  get_dxy_index (Frame (init ++ [latest]))
    = Value (Some latest, Some (init ++ [latest])).
Proof.
  unfold get_exchange_rate, get_dxy_index.
  destruct (init ++ [latest]) as [|x rest] eqn:E; [destruct init; discriminate|].
  rewrite <- E, iloc_last_app. split; reflexivity.
Qed.

(** The three shapes of what a fetch gives, and what [get_dxy_index]
    makes of each. *)
Lemma get_dxy_index_cases h :
  (get_dxy_index h = Value (None, None) /\ (h = Fails \/ h = Frame [])) \/
  (exists init latest,
     h = Frame (init ++ [latest]) /\
     get_dxy_index h = Value (Some latest, Some (init ++ [latest]))).
Proof.
  destruct h as [|hist]; [left; auto|].
  destruct hist as [|x rest]; [left; auto|]. right.
  destruct (exists_last (l := x :: rest)) as (init & latest & E); [discriminate|].
  exists init, latest. rewrite E. split; [reflexivity | apply fetch_latest].
Qed.

Lemma analyze_dxy_trend_returns dh : exists p, analyze_dxy_trend dh = Value p.
Proof.
  destruct dh as [rows|]; [|simpl; eauto].
  destruct (Z.ltb_spec (len rows) 20) as [L|L].
  - simpl. destruct (Z.ltb_spec (len rows) 20); [eauto | lia].
  - destruct (analyze_dxy_trend_value rows L) as (i & l & _ & E). eauto.
Qed.

(** X15: Without an exchange rate (the fetch fails or gives an empty frame)
    the page shows the error and computes nothing.  With a history that
    has rows but fewer than [period_days] the run ends in the TypeError
    of the subscripted tuple, whatever the index data and the amount. *)
Theorem page_without_enough_history :
  forall amount period dxy,
    run_analysis amount period Fails dxy = Value RateUnavailable /\
    run_analysis amount period (Frame []) dxy = Value RateUnavailable /\
    forall rows,
      rows <> [] -> (len rows < period)%Z ->
      run_analysis amount period (Frame rows) dxy = Raise TypeError.
Proof.
  intros amount period dxy.
  assert (D : exists cd dh, get_dxy_index dxy = Value (cd, dh)).
  { destruct (get_dxy_index_cases dxy) as [[E _]|(i & l & _ & E)]; eauto. }
  destruct D as (cd & dh & D).
  split; [unfold run_analysis; simpl; now rewrite D|].
  split; [unfold run_analysis; simpl; now rewrite D|].
  intros rows Hne Hlen.
  destruct (exists_last Hne) as (init & latest & ->).
  unfold run_analysis.
  rewrite (proj1 (fetch_latest init latest)). simpl bind. rewrite D. simpl bind.
  rewrite calculate_short.
  - simpl bind. destruct (analyze_dxy_trend_returns dh) as (p & ->). reflexivity.
  - apply has_window_none. right. eauto.
Qed.

Lemma page_without_enough_history_witness :
  run_analysis 1000000 504 (Frame [1290; 1300; 1310]) (Frame [99; 100])
    = Raise TypeError.
Proof.
  apply (proj2 (proj2 (page_without_enough_history 1000000 504 (Frame [99; 100])))).
  - discriminate.
  - unfold len. simpl. lia.
Defined.

(** Which conditions have their inputs in a dictionary the calculator
    of the exact embedding returned. *)
Lemma calculator_inputs cr rh cd dh n g :
  calculate_dollar_gap_ratio cr rh cd dh n = Value (GapDict g) ->
  inputs_present g 1 = true /\
  inputs_present g 2 = present (has_window dh n) && present (truthy cd) /\
  inputs_present g 3
    = present (has_window dh n) && present (truthy cd) && Qgtb cr 0 /\
  inputs_present g 4 = inputs_present g 3.
Proof.
  intros H.
  apply calculate_value in H
    as (rows & lo & hi & dm & dmm & _ & _ & _ & _ & V & S & D & G & _).
  apply gap_ratios_value in G. apply dxy_window_value in D.
  unfold inputs_present. simpl. rewrite V, S. simpl.
  destruct (truthy cd) as [d|].
  - destruct (has_window dh n) as [drows|].
    + destruct D as (dlo & dhi & _ & _ & -> & _ & Hmid & ->).
      rewrite truthy_nonzero in G by exact Hmid.
      destruct (Qgtb cr 0).
      * destruct G as (-> & _ & _ & -> & ->). auto.
      * destruct G as (-> & -> & ->). auto.
    + destruct D as (-> & -> & _).
      destruct (Qgtb cr 0).
      * destruct G as (-> & -> & ->). auto.
      * destruct G as (-> & -> & ->). auto.
  - destruct G as (-> & -> & ->).
    destruct (has_window dh n) as [drows|].
    + destruct D as (dlo & dhi & _ & _ & _ & _ & ->). auto.
    + destruct D as (_ & -> & _). auto.
Qed.

Lemma latest_positive init latest : positive_series (init ++ [latest]) -> 0 < latest.
Proof.
  unfold positive_series. rewrite Forall_forall. intros P.
  apply P, in_or_app. right. now left.
Qed.

(** X16: On price series, with a positive amount and a rate history of at
    least [period_days] rows, the page is computed: the current rate is
    the latest close and lies between "min" and "max" of "rate_stats",
    the investment details are there, and the recommendation evaluates
    all four conditions when the index history has [period_days] rows
    and condition 1 alone when it has fewer or the fetch failed. *)
Theorem page_on_price_series :
  forall amount period init latest dxy,
    0 < amount ->
    (0 < period <= len (init ++ [latest]))%Z ->
    positive_series (init ++ [latest]) ->
    (forall drows, dxy = Frame drows -> positive_series drows) ->
    exists a g,
      run_analysis amount period (Frame (init ++ [latest])) dxy = Value (Analysed a) /\
      page_current_rate a = latest /\
      page_gap_data a = GapDict g /\
      min (rate_stats g) <= latest /\ latest <= max (rate_stats g) /\
      page_investment_details a <> None /\
      map condition (rec_recommendations (page_recommendation a))
        = match dxy with
          | Frame drows => if (period <=? len drows)%Z then [1; 2; 3; 4]%Z else [1]%Z
          | Fails => [1]%Z
          end.
Proof.
  intros amount period init latest dxy A Hn P PD.
  set (rows := init ++ [latest]) in *.
  pose proof (latest_positive init latest P) as Pl.
  assert (D : exists cd dh,
             get_dxy_index dxy = Value (cd, dh) /\
             (forall drows, dh = Some drows -> positive_series drows) /\
             present (has_window dh period) && present (truthy cd)
               = match dxy with
                 | Frame drows => (period <=? len drows)%Z
                 | Fails => false
                 end).
  { destruct (get_dxy_index_cases dxy) as [[E [->| ->]]|(i & l & -> & E)].
    - exists None, None. split; [exact E|]. split; [discriminate | reflexivity].
    - exists None, None. split; [exact E|]. split; [discriminate|].
      simpl. destruct (Z.leb_spec period (len [])); [unfold len in *; simpl in *; lia|].
      reflexivity.
    - do 2 eexists. split; [exact E|].
      pose proof (PD _ eq_refl) as Pd. split; [now intros ? [= <-]|].
      pose proof (latest_positive i l Pd) as Pdl.
      rewrite truthy_nonzero by lra. simpl.
      destruct (period <=? len (i ++ [l]))%Z; reflexivity. }
  destruct D as (cd & dh & D & Pdh & IP).
  destruct (calculate_total latest rows cd dh period Hn P (or_intror (or_intror Pdh)))
    as (g & C).
  destruct (analyze_dxy_trend_returns dh) as (tr & T).
  destruct (recommendation_total _ _ _ _ _ _ C) as (r & R).
  exists {| page_current_rate := latest; page_current_dxy := cd;
            page_gap_data := GapDict g; page_dxy_trend := tr;
            page_recommendation := r;
            page_investment_details := Some {|
              investment_amount := amount; current_rate := latest;
              dollar_amount := amount / latest;
              fee := amount * 0.002;
              net_investment := amount - amount * 0.002;
              net_dollar := (amount - amount * 0.002) / latest;
              fee_rate := 0.002 * 100 |} |}, g.
  split.
  { unfold run_analysis, rows.
    rewrite (proj1 (fetch_latest init latest)). fold rows. cbn [bind].
    rewrite D. cbn [bind]. rewrite C. cbn [bind]. rewrite T. cbn [bind].
    rewrite R. cbn [bind]. unfold calculate_investment_details.
    rewrite !divide_nonzero by lra. reflexivity. }
  simpl. split; [reflexivity|]. split; [reflexivity|].
  assert (In latest (tail period rows)) as Hin.
  { destruct (tail_app_last period init latest) as (i' & E); [lia|].
    unfold rows. rewrite E. apply in_or_app. right. now left. }
  pose proof C as C'.
  apply calculate_value in C'
    as (rows' & lo & hi & dm & dmm & W & L & M & _ & _ & S & _).
  apply has_window_some in W as [[= <-] _].
  apply col_min_value in L as [_ Lle]. apply col_max_value in M as [_ Mle].
  rewrite S. simpl.
  split; [now apply Lle|]. split; [now apply Mle|]. split; [discriminate|].
  apply recommendation_value in R as (t & E & _ & -> & _).
  apply evaluate_conditions_counted in E as [_ N]. unfold numbers in N. rewrite N.
  apply calculator_inputs in C as (I1 & I2 & I3 & I4).
  assert (Q : Qgtb latest 0 = true) by now apply Qgtb_true.
  rewrite Q, andb_true_r in I3. rewrite I3 in I4. rewrite IP in I2, I3, I4.
  simpl. rewrite I1, I2, I3, I4.
  destruct dxy as [|drows]; [reflexivity|].
  destruct (period <=? len drows)%Z; reflexivity.
Qed.

Lemma page_on_price_series_witness :
  exists a g,
    run_analysis 1000000 2 (Frame ([1300] ++ [1310])) (Frame [99; 100])
      = Value (Analysed a) /\
    page_current_rate a = 1310 /\
    page_gap_data a = GapDict g /\
    min (rate_stats g) <= 1310 /\ 1310 <= max (rate_stats g) /\
    page_investment_details a <> None /\
    map condition (rec_recommendations (page_recommendation a)) = [1; 2; 3; 4]%Z.
Proof.
  apply (page_on_price_series 1000000 2 [1300] 1310 (Frame [99; 100])).
  - reflexivity.
  - unfold len. simpl. lia.
  - repeat constructor.
  - intros drows [= <-]. repeat constructor.
Defined.

(* ------------------------------------------------------------------ *)
(** ** The conditions evaluated on price series *)

(** X4: on price series the function returns the dictionary and the
    recommendation, and the conditions evaluated are 1 alone, 1 and 2, or
    all four (1 alone or all four when the current rate is positive):
    never none and never three, so the decision is not the label of
    insufficient data. *)
Theorem evaluated_conditions_on_price_series :
  forall cr rows cd dh n,
    (0 < n <= len rows)%Z -> positive_series rows ->
    (forall drows, dh = Some drows -> positive_series drows) ->
    exists g r,
      calculate_dollar_gap_ratio cr (Some rows) cd dh n = Value (GapDict g) /\
      get_investment_recommendation (GapDict g) = Value r /\
      (map condition (rec_recommendations r) = [1]%Z \/
       map condition (rec_recommendations r) = [1; 2]%Z \/
       map condition (rec_recommendations r) = [1; 2; 3; 4]%Z) /\
      (0 < cr -> map condition (rec_recommendations r) <> [1; 2]%Z) /\
      decision r <> insufficient_data.
Proof.
  intros cr rows cd dh n Hn P PD.
  destruct (calculate_total cr rows cd dh n Hn P (or_intror (or_intror PD)))
    as (g & C).
  destruct (recommendation_total _ _ _ _ _ _ C) as (r & R).
  exists g, r. split; [exact C|]. split; [exact R|].
  apply recommendation_value in R as (t & E & Dc & Rc & _ & T).
  pose proof (evaluate_conditions_counted g t E) as [_ N].
  unfold numbers in N. rewrite <- Rc in N.
  apply calculator_inputs in C as (I1 & I2 & I3 & I4).
  rewrite I3 in I4.
  assert (K : (map condition (rec_recommendations r) = [1]%Z \/
               map condition (rec_recommendations r) = [1; 2]%Z \/
               map condition (rec_recommendations r) = [1; 2; 3; 4]%Z) /\
              (0 < cr -> map condition (rec_recommendations r) <> [1; 2]%Z)).
  { rewrite N. simpl. rewrite I1, I2, I3, I4.
    destruct (present (has_window dh n) && present (truthy cd)); simpl.
    - destruct (Qgtb cr 0) eqn:Q; simpl.
      + split; [auto | discriminate].
      + apply Qgtb_false in Q. split; [auto | intros; lra].
    - split; [auto | discriminate]. }
  destruct K as [K1 K2]. split; [exact K1|]. split; [exact K2|].
  rewrite Dc. apply final_decision_sufficient.
  rewrite <- T. unfold conditions_total.
  rewrite <- (length_map condition).
  destruct K1 as [-> | [-> | ->]]; discriminate.
Qed.

Lemma evaluated_conditions_on_price_series_witness :
  exists g r,
    calculate_dollar_gap_ratio 1310 (Some [1300; 1310]) (Some 100) (Some [100]) 2
      = Value (GapDict g) /\
    get_investment_recommendation (GapDict g) = Value r /\
    map condition (rec_recommendations r) <> [1; 2]%Z /\
    decision r <> insufficient_data.
Proof.
  destruct (evaluated_conditions_on_price_series
              1310 [1300; 1310] (Some 100) (Some [100]) 2)
    as (g & r & C & R & _ & K & D).
  - unfold len. simpl. lia.
  - repeat constructor.
  - intros drows [= <-]. repeat constructor.
  - exists g, r. split; [exact C|]. split; [exact R|].
    split; [apply K; reflexivity | exact D].
Defined.

(* ================================================================== *)
(** * Properties on binary64 numbers *)

Import PrimFloat.
#[local] Set Warnings "-inexact-float".

(** ** Frames of any kind of value *)

Lemma b64_tail_positive {A : Type} n (df : list A) :
  (0 < n)%Z -> Binary64.tail n df = skipn (List.length df - Z.to_nat n) df.
Proof.
  intros H. unfold Binary64.tail.
  destruct (Z.eqb_spec n 0); [lia|].
  destruct (Z.ltb_spec 0 n); [reflexivity | lia].
Qed.

Lemma b64_tail_last_rows {A : Type} n (df : list A) :
  (0 < n)%Z -> Binary64.tail n df = last_rows (Z.to_nat n) df.
Proof.
  intros H. rewrite b64_tail_positive by exact H.
  unfold last_rows. rewrite firstn_rev, rev_involutive. reflexivity.
Qed.

Lemma b64_tail_length {A : Type} n (df : list A) :
  (0 < n <= Binary64.len df)%Z -> List.length (Binary64.tail n df) = Z.to_nat n.
Proof.
  intros [H1 H2]. rewrite b64_tail_positive by exact H1.
  rewrite length_skipn. unfold Binary64.len in H2. lia.
Qed.

Lemma b64_tail_tail {A : Type} n k (df : list A) :
  (0 < k <= n)%Z -> (n <= Binary64.len df)%Z ->
  Binary64.tail k (Binary64.tail n df) = Binary64.tail k df.
Proof.
  intros Hk Hn.
  assert (L : List.length (Binary64.tail n df) = Z.to_nat n)
    by (apply b64_tail_length; lia).
  rewrite (b64_tail_positive k) by lia. rewrite L.
  rewrite (b64_tail_positive n) by lia. rewrite (b64_tail_positive k) by lia.
  rewrite skipn_skipn. f_equal. unfold Binary64.len in Hn. lia.
Qed.

Lemma b64_iloc_last_app {A : Type} (init : list A) x :
  Binary64.iloc_last (init ++ [x]) = Value x.
Proof.
  induction init as [|a init IH]; [reflexivity|].
  simpl. destruct (init ++ [x]) eqn:E; [|exact IH].
  destruct init; discriminate.
Qed.

Lemma b64_iloc_last_tail {A : Type} n (init : list A) x :
  (0 < n)%Z -> Binary64.iloc_last (Binary64.tail n (init ++ [x])) = Value x.
Proof.
  intros H. rewrite b64_tail_positive by exact H.
  rewrite length_app. simpl.
  set (k := (List.length init + 1 - Z.to_nat n)%nat).
  assert (K : (k <= List.length init)%nat) by lia.
  rewrite skipn_app.
  replace (k - List.length init)%nat with 0%nat by lia.
  simpl. apply b64_iloc_last_app.
Qed.

(* ------------------------------------------------------------------ *)
(** ** C3 on binary64 numbers *)


(* ------------------------------------------------------------------ *)
(** ** C8 on binary64 numbers *)

(** C8 as stated fails: on twenty closes of 109.99 the latest value is
    equal to the mean of the last 20 and of the last 5, and both labels
    are "up": the sum is rounded, and the mean the program compares with
    is 109.98999999999998. *)
Lemma C8_counterexample :
  Binary64.analyze_dxy_trend (Some (repeat 109.99%float 20))
    = Value (Some up, Some up) /\
  ltb (Binary64.col_mean (repeat 109.99%float 20)) 109.99%float = true /\
  ltb (Binary64.col_mean (repeat 109.99%float 5)) 109.99%float = true.
Proof. vm_compute. repeat split. Qed.

(** C8, amended: no series, or fewer than 20 observations, gives
    (None, None).  From 20 observations on, the medium-term label is
    "up" exactly when the mean of the last 20 observations, as it is
    computed, is below the latest value in the comparison of binary64
    numbers, and "down" otherwise; the short-term label likewise with the
    last 5.  This holds for whatever function computes the mean. *)
Theorem C8_trend_by_computed_mean :
  forall mean : list float -> float,
    Binary64.analyze_dxy_trend_with mean None = Value (None, None) /\
    (forall rows,
       (Binary64.len rows < 20)%Z ->
       Binary64.analyze_dxy_trend_with mean (Some rows) = Value (None, None)) /\
    (forall rows,
       (20 <= Binary64.len rows)%Z ->
       exists init latest medium short,
         rows = init ++ [latest] /\
         Binary64.analyze_dxy_trend_with mean (Some rows)
           = Value (Some medium, Some short) /\
         (medium = up <-> ltb (mean (last_rows 20 rows)) latest = true) /\
         (medium = down <-> ltb (mean (last_rows 20 rows)) latest = false) /\
         (short = up <-> ltb (mean (last_rows 5 rows)) latest = true) /\
         (short = down <-> ltb (mean (last_rows 5 rows)) latest = false)).
Proof.
  intros mean. split; [reflexivity|]. split.
  - intros rows H. simpl.
    destruct (Z.ltb_spec (Binary64.len rows) 20); [reflexivity | lia].
  - intros rows H.
    destruct (exists_last (l := rows)) as (init & latest & E).
    { intros ->. unfold Binary64.len in H. simpl in H. lia. }
    exists init, latest.
    unfold Binary64.analyze_dxy_trend_with.
    destruct (Z.ltb_spec (Binary64.len rows) 20); [lia|].
    rewrite (b64_tail_tail 20 5) by lia.
    assert (I : Binary64.iloc_last (Binary64.tail 20 rows) = Value latest).
    { rewrite E. apply b64_iloc_last_tail. lia. }
    rewrite I. cbn [bind].
    rewrite !b64_tail_last_rows by lia.
    change (Z.to_nat 20) with 20%nat. change (Z.to_nat 5) with 5%nat.
    do 2 eexists. split; [exact E|]. split; [reflexivity|].
    split; [apply label_up_down|]. split; [apply label_up_down|].
    split; apply label_up_down.
Qed.

Lemma C8_trend_by_computed_mean_witness :
  Binary64.analyze_dxy_trend_with Binary64.col_mean (Some [100; 101; 102]%float)
    = Value (None, None) /\
  exists init latest medium short,
    (repeat 100 15 ++ [90; 91; 92; 93; 94])%float = init ++ [latest] /\
    Binary64.analyze_dxy_trend_with Binary64.col_mean
      (Some (repeat 100 15 ++ [90; 91; 92; 93; 94])%float)
      = Value (Some medium, Some short) /\
    (medium = up <->
       ltb (Binary64.col_mean
              (last_rows 20 (repeat 100 15 ++ [90; 91; 92; 93; 94])%float)) latest
         = true) /\
    (medium = down <->
       ltb (Binary64.col_mean
              (last_rows 20 (repeat 100 15 ++ [90; 91; 92; 93; 94])%float)) latest
         = false) /\
    (short = up <->
       ltb (Binary64.col_mean
              (last_rows 5 (repeat 100 15 ++ [90; 91; 92; 93; 94])%float)) latest
         = true) /\
    (short = down <->
       ltb (Binary64.col_mean
              (last_rows 5 (repeat 100 15 ++ [90; 91; 92; 93; 94])%float)) latest
         = false).
Proof.
  destruct (C8_trend_by_computed_mean Binary64.col_mean) as (_ & A & B). split.
  - apply A. unfold Binary64.len. simpl. lia.
  - apply B. unfold Binary64.len. simpl. lia.
Defined.

(** The labels of a series that ends below its 20-day mean and above
    its 5-day mean. *)
Example b64_trend_mixed :
  Binary64.analyze_dxy_trend (Some (repeat 100 15 ++ [90; 91; 92; 93; 94])%float)
    = Value (Some down, Some up).
Proof. vm_compute. reflexivity. Qed.

(** A latest value equal to a mean that is computed without rounding:
    both labels are "down". *)
Example b64_trend_tie :
  Binary64.analyze_dxy_trend (Some (repeat 100%float 20))
    = Value (Some down, Some down).
Proof. vm_compute. reflexivity. Qed.
